(** * The maintenance NApp models: [MaintenanceWindow] and [Scheduler]

    A shallow embedding of [models.py].  Python values are a small
    inductive type, exceptions are an error monad, in-place mutation of
    [self] is explicit state passing, and every call that leaves the
    module (the Kytos controller, the Kytos entity classes, [datetime],
    the APScheduler job store) goes through one named operation. *)

From Stdlib Require Import String Ascii List ZArith NArith Bool Lia.
From Stdlib Require Import DecimalString.
Import ListNotations.
Open Scope string_scope.

Set Implicit Arguments.
Set Warnings "-register-all".

(** ** Exceptions *)

(** The exception classes that the module raises, catches or lets through. *)
Inductive exn : Type :=
| KeyError
| TypeError
| AttributeError
| ValueError
| JobLookupError
| ConflictingIdError
| OtherError (name : string).

Definition exn_eqb (a b : exn) : bool :=
  match a, b with
  | KeyError, KeyError | TypeError, TypeError
  | AttributeError, AttributeError | ValueError, ValueError
  | JobLookupError, JobLookupError
  | ConflictingIdError, ConflictingIdError => true
  | OtherError n, OtherError m => String.eqb n m
  | _, _ => false
  end.

(** [isinstance e cls]: an [except cls] clause catches [e].  APScheduler
    declares [JobLookupError] and [ConflictingIdError] as subclasses of
    [KeyError]. *)
Definition isinstance (e cls : exn) : bool :=
  match cls, e with
  | KeyError, (JobLookupError | ConflictingIdError) => true
  | _, _ => exn_eqb e cls
  end.

Inductive result (A : Type) : Type :=
| Ok (a : A)
| Raise (e : exn).

Arguments Ok {A} a.
Arguments Raise {A} e.

Definition bind {A B : Type} (r : result A) (k : A -> result B) : result B :=
  match r with
  | Ok a => k a
  | Raise e => Raise e
  end.

Declare Scope py_scope.
Delimit Scope py_scope with py.
Notation "x <- e ;; k" := (bind e (fun x => k))
  (at level 61, e at next level, right associativity) : py_scope.
Open Scope py_scope.

(** ** Values *)

(** A Python value as the module sees it: JSON data with integers for
    numbers, plus instances of the Kytos classes (Interface, TAG, UNI,
    Link), which are opaque here. A [dict] keeps its insertion order, as
    Python's does. *)
Inductive pyval (obj : Type) : Type :=
| VNone
| VBool (b : bool)
| VInt (z : Z)
| VStr (s : string)
| VList (l : list (pyval obj))
| VDict (d : list (string * pyval obj))
| VObj (o : obj).

Arguments VNone {obj}.
Arguments VBool {obj} b.
Arguments VInt {obj} z.
Arguments VStr {obj} s.
Arguments VList {obj} l.
Arguments VDict {obj} d.
Arguments VObj {obj} o.

Definition dict (obj : Type) : Type := list (string * pyval obj).

Section Builtins.
Context {obj : Type}.

(** Truth value of [v] in an [if].  The Kytos classes define neither
    [__bool__] nor [__len__], so their instances are true. *)
Definition truthy (v : pyval obj) : bool :=
  match v with
  | VNone => false
  | VBool b => b
  | VInt z => negb (Z.eqb z 0)
  | VStr s => negb (String.eqb s "")
  | VList l => match l with [] => false | _ => true end
  | VDict d => match d with [] => false | _ => true end
  | VObj _ => true
  end.

Definition is_None (v : pyval obj) : bool :=
  match v with VNone => true | _ => false end.

Definition is_dict (v : pyval obj) : bool :=
  match v with VDict _ => true | _ => false end.

(** [d.get(key)] on an association list: the first binding of [key]. *)
Fixpoint lookup (key : string) (d : dict obj) : option (pyval obj) :=
  match d with
  | [] => None
  | (k, v) :: d' => if String.eqb k key then Some v else lookup key d'
  end.

(** [key in d] *)
Definition dict_contains (key : string) (d : dict obj) : bool :=
  match lookup key d with Some _ => true | None => false end.

(** [d.get(key)] *)
Definition dict_get (key : string) (d : dict obj) : pyval obj :=
  match lookup key d with Some v => v | None => VNone end.

(** [d[key]] *)
Definition dict_getitem (key : string) (d : dict obj) : result (pyval obj) :=
  match lookup key d with Some v => Ok v | None => Raise KeyError end.

(** [v[key]] with a string key: only a dict can answer; a str, a list, a
    number, [None] and a Kytos object all raise [TypeError]. *)
Definition getitem (v : pyval obj) (key : string) : result (pyval obj) :=
  match v with
  | VDict d => dict_getitem key d
  | _ => Raise TypeError
  end.

(** [for i in v]: the elements of a list, the characters of a str, the
    keys of a dict; nothing else here is iterable. *)
Definition py_iter (v : pyval obj) : result (list (pyval obj)) :=
  match v with
  | VList l => Ok l
  | VStr s => Ok (map (fun c => VStr (String c "")) (list_ascii_of_string s))
  | VDict d => Ok (map (fun kv => VStr (fst kv)) d)
  | _ => Raise TypeError
  end.

End Builtins.

(** ** The collaborators *)

(** [TIME_FMT] *)
Definition TIME_FMT : string := "%Y-%m-%dT%H:%M:%S%z".

(** What [models.py] calls outside itself. [obj] is the type of Kytos
    entity instances, [datetime] that of [datetime.datetime] values. A
    method that mutates its receiver returns the receiver afterwards. *)
Class Library (obj datetime : Type) : Type := {
  (** [d.strftime(fmt)] *)
  strftime : datetime -> string -> string;
  (** [datetime.datetime.strptime(v, fmt)] *)
  strptime : pyval obj -> string -> result datetime;
  (** [d.astimezone(pytz.utc)] *)
  astimezone_utc : datetime -> result datetime;
  (** [TAG.from_dict(v)] *)
  TAG_from_dict : pyval obj -> result obj;
  (** [UNI(intf, tag)] *)
  UNI : pyval obj -> obj -> result obj;
  (** [Link(endpoint_a, endpoint_b)] *)
  Link : pyval obj -> pyval obj -> result obj;
  (** [link.extend_metadata(v)] *)
  extend_metadata : obj -> pyval obj -> result obj;
  (** [link.get_metadata(key)] *)
  get_metadata : obj -> string -> result (pyval obj);
  (** [link.update_metadata(key, v)] *)
  update_metadata : obj -> string -> pyval obj -> result obj;
  (** [o.as_dict()] on a Kytos object *)
  obj_as_dict : obj -> result (pyval obj);
  (** [f'{v}'] *)
  format : pyval obj -> string
}.

(** The controller is used through one method only,
    [controller.get_interface_by_id(intf_id)]. *)
Definition Controller (obj : Type) : Type := pyval obj -> result (pyval obj).

(** ** MaintenanceWindow *)

Section Models.
Context {obj datetime : Type} {L : Library obj datetime}.

Abbreviation value := (pyval obj).

Record MaintenanceWindow : Type := mkMW {
  id : value;
  start : datetime;
  end_ : datetime;
  items : list value;
  controller : Controller obj
}.

(** [__init__]. [items] is [None] for a missing argument; [fresh] is what
    [uuid4().hex] returns if it is called. *)
Definition init (start end_ : datetime) (controller : Controller obj)
    (items : option (list value)) (mw_id : value) (fresh : string)
  : MaintenanceWindow :=
  let items := match items with None => [] | Some l => l end in
  {| id := if truthy mw_id then mw_id else VStr fresh;
     start := start;
     end_ := end_;
     items := items;
     controller := controller |}.

(** [i.as_dict()] for an item [i]: data values have no such attribute. *)
Definition call_as_dict (i : value) : result value :=
  match i with
  | VObj o => obj_as_dict o
  | _ => Raise AttributeError
  end.

(** The loop of [as_dict], appending to [mw_dict['items']]. *)
Fixpoint as_dict_items (l : list value) (acc : list value)
  : result (list value) :=
  match l with
  | [] => Ok acc
  | i :: l' =>
      match call_as_dict i with
      | Ok d => as_dict_items l' (acc ++ [d])
      | Raise e =>
          if isinstance e AttributeError || isinstance e TypeError
          then as_dict_items l' (acc ++ [i])
          else Raise e
      end
  end.

Definition as_dict (self : MaintenanceWindow) : result (dict obj) :=
  let s := VStr (strftime (start self) TIME_FMT) in
  let e := VStr (strftime (end_ self) TIME_FMT) in
  its <- as_dict_items (items self) [] ;;
  Ok [("id", id self); ("start", s); ("end", e); ("items", VList its)].

(** [intf_from_dict] *)
Definition intf_from_dict (intf_id : value) (controller : Controller obj)
  : result value :=
  controller intf_id.

(** [uni_from_dict] *)
Definition uni_from_dict (uni_dict : value) (controller : Controller obj)
  : result value :=
  intf_id <- getitem uni_dict "interface_id" ;;
  intf <- intf_from_dict intf_id controller ;;
  t <- getitem uni_dict "tag" ;;
  tag <- TAG_from_dict t ;;
  if truthy intf && truthy (VObj tag)
  then (u <- UNI intf tag ;; Ok (VObj u))
  else Ok VNone.

(** [link_from_dict]. A [link_dict] that is not a dict fails at its first
    subscript. *)
Definition link_from_dict (link_dict : value) (controller : Controller obj)
  : result value :=
  match link_dict with
  | VDict d =>
      a <- dict_getitem "endpoint_a" d ;;
      a_id <- getitem a "id" ;;
      endpoint_a <- controller a_id ;;
      b <- dict_getitem "endpoint_b" d ;;
      b_id <- getitem b "id" ;;
      endpoint_b <- controller b_id ;;
      link <- Link endpoint_a endpoint_b ;;
      link <- (if dict_contains "metadata" d
               then (m <- dict_getitem "metadata" d ;; extend_metadata link m)
               else Ok link) ;;
      s_vlan <- get_metadata link "s_vlan" ;;
      link <- (if truthy s_vlan
               then (tag <- TAG_from_dict s_vlan ;;
                     update_metadata link "s_vlan" (VObj tag))
               else Ok link) ;;
      Ok (VObj link)
  | _ => Raise TypeError
  end.

(** The [try] statement that [from_dict] and [update] both run on an item:
    the UNI reading; on [KeyError] the link reading, whose own exceptions
    are not handled; on [TypeError] the item itself. *)
Definition item_from_dict (i : value) (controller : Controller obj)
  : result value :=
  match uni_from_dict i controller with
  | Ok item => Ok item
  | Raise e =>
      if isinstance e KeyError then link_from_dict i controller
      else if isinstance e TypeError then Ok i
      else Raise e
  end.

(** [strptime(v, TIME_FMT).astimezone(pytz.utc)] *)
Definition parse_time (v : value) : result datetime :=
  d <- strptime v TIME_FMT ;;
  astimezone_utc d.

(** The loop of [from_dict]: [None] is the early [return None]. *)
Fixpoint from_dict_items (l : list value) (controller : Controller obj)
    (acc : list value) : result (option (list value)) :=
  match l with
  | [] => Ok (Some acc)
  | i :: l' =>
      item <- item_from_dict i controller ;;
      if is_None item then Ok None
      else from_dict_items l' controller (acc ++ [item])
  end.

Definition from_dict (mw_dict : dict obj) (controller : Controller obj)
    (fresh : string) : result (option MaintenanceWindow) :=
  let mw_id := dict_get "id" mw_dict in
  s <- dict_getitem "start" mw_dict ;;
  start <- parse_time s ;;
  e <- dict_getitem "end" mw_dict ;;
  end_ <- parse_time e ;;
  its <- dict_getitem "items" mw_dict ;;
  l <- py_iter its ;;
  r <- from_dict_items l controller [] ;;
  match r with
  | None => Ok None
  | Some items =>
      Ok (Some (init start end_ controller (Some items) mw_id fresh))
  end.

(** The loop of [update]. *)
Fixpoint update_items (l : list value) (controller : Controller obj)
    (acc : list value) : result (list value) :=
  match l with
  | [] => Ok acc
  | i :: l' =>
      item <- item_from_dict i controller ;;
      if truthy item then update_items l' controller (acc ++ [item])
      else update_items l' controller acc
  end.

Definition set_start (self : MaintenanceWindow) (d : datetime) :=
  {| id := id self; start := d; end_ := end_ self; items := items self;
     controller := controller self |}.

Definition set_end (self : MaintenanceWindow) (d : datetime) :=
  {| id := id self; start := start self; end_ := d; items := items self;
     controller := controller self |}.

Definition set_items (self : MaintenanceWindow) (l : list value) :=
  {| id := id self; start := start self; end_ := end_ self; items := l;
     controller := controller self |}.

(** [update] mutates [self] in place: the result is [self] as the call
    leaves it, together with [Ok tt] for a normal return or the exception
    that ended it. *)
Definition update_start (self : MaintenanceWindow) (mw_dict : dict obj)
  : MaintenanceWindow * result unit :=
  if dict_contains "start" mw_dict then
    match (s <- dict_getitem "start" mw_dict ;; parse_time s) with
    | Ok d => (set_start self d, Ok tt)
    | Raise e => (self, Raise e)
    end
  else (self, Ok tt).

Definition update_end (self : MaintenanceWindow) (mw_dict : dict obj)
  : MaintenanceWindow * result unit :=
  if dict_contains "end" mw_dict then
    match (s <- dict_getitem "end" mw_dict ;; parse_time s) with
    | Ok d => (set_end self d, Ok tt)
    | Raise e => (self, Raise e)
    end
  else (self, Ok tt).

Definition update_item_list (self : MaintenanceWindow) (mw_dict : dict obj)
    (controller : Controller obj) : MaintenanceWindow * result unit :=
  if dict_contains "items" mw_dict then
    match (its <- dict_getitem "items" mw_dict ;;
           l <- py_iter its ;;
           update_items l controller []) with
    | Ok items => (set_items self items, Ok tt)
    | Raise e => (self, Raise e)
    end
  else (self, Ok tt).

Definition update (self : MaintenanceWindow) (mw_dict : dict obj)
    (controller : Controller obj) : MaintenanceWindow * result unit :=
  match update_start self mw_dict with
  | (self, Raise e) => (self, Raise e)
  | (self, Ok _) =>
      match update_end self mw_dict with
      | (self, Raise e) => (self, Raise e)
      | (self, Ok _) => update_item_list self mw_dict controller
      end
  end.

(** An item that survives a round trip through its own dict: a plain
    token (a string, or any data value other than a dict and [None]), or
    a Kytos object whose [as_dict()] the controller resolves back to it. *)
Definition resolvable (controller : Controller obj) (i : value) : Prop :=
  match i with
  | VNone | VDict _ => False
  | VObj o =>
      exists d, obj_as_dict o = Ok (VDict d) /\
                item_from_dict (VDict d) controller = Ok (VObj o)
  | _ => True
  end.

(** An event put on the controller's buffer. *)
Record KytosEvent : Type := mkEvent {
  name : string;
  content : list value
}.

(** [start_mw] and [end_mw] run against the event buffer; their body is
    [pass]. *)
Definition start_mw (self : MaintenanceWindow) (buffer : list KytosEvent)
  : list KytosEvent * result unit :=
  (buffer, Ok tt).

Definition end_mw (self : MaintenanceWindow) (buffer : list KytosEvent)
  : list KytosEvent * result unit :=
  (buffer, Ok tt).

End Models.

Arguments MaintenanceWindow obj datetime : clear implicits.
Arguments KytosEvent obj : clear implicits.

(** ** Scheduler *)

Module Scheduler.
Section Scheduler.
Context {obj datetime : Type} {L : Library obj datetime}.

(** The bound method a job calls. *)
Inductive method : Type :=
| call_start_mw
| call_end_mw.

Record Job : Type := mkJob {
  job_id : string;
  func : method;
  self_ : MaintenanceWindow obj datetime;
  run_date : datetime
}.

(** A [Scheduler] instance: the jobs held by [self.scheduler], a started
    [BackgroundScheduler] over its default memory store, and the lines
    written through [log.info]. A job leaves the store through
    [remove_job], or when the scheduler's own thread runs it: see [fire]. *)
Record t : Type := mk {
  jobs : list Job;
  log : list string
}.

(** [__init__] *)
Definition init : t := {| jobs := []; log := [] |}.

(** The ids held by the store. *)
Definition job_names (l : list Job) : list string := map job_id l.

Definition has_job (name : string) (l : list Job) : bool :=
  existsb (fun j => String.eqb (job_id j) name) l.

Definition drop_job (name : string) (l : list Job) : list Job :=
  filter (fun j => negb (String.eqb (job_id j) name)) l.

(** [self.scheduler.add_job(func, 'date', id=name, run_date=run_date)].
    [replace_existing] is left at its default, [False]: the store refuses
    an id it already holds with [ConflictingIdError]. *)
Definition add_job (s : t) (f : method) (w : MaintenanceWindow obj datetime)
    (name : string) (d : datetime) : t * result unit :=
  if has_job name (jobs s) then (s, Raise ConflictingIdError)
  else ({| jobs := jobs s ++ [mkJob name f w d]; log := log s |}, Ok tt).

(** [self.scheduler.remove_job(name)]: [JobLookupError] when no job has
    that id. *)
Definition remove_job (s : t) (name : string) : t * result unit :=
  if has_job name (jobs s)
  then ({| jobs := drop_job name (jobs s); log := log s |}, Ok tt)
  else (s, Raise JobLookupError).

(** What the started scheduler does by itself, between the calls of the
    module, once the job called [name] is due: its thread runs the job,
    whose hook is [pass], and deletes it, a ['date'] job running once.
    Nothing happens for a name that is not in the store. *)
Definition fire (s : t) (name : string) : t :=
  {| jobs := drop_job name (jobs s); log := log s |}.

(** The jobs called [names] coming due one after the other. *)
Definition fire_all (s : t) (names : list string) : t :=
  fold_left fire names s.

(** [log.info(line)] *)
Definition log_info (s : t) (line : string) : t :=
  {| jobs := jobs s; log := log s ++ [line] |}.

Definition start_name (mw : MaintenanceWindow obj datetime) : string :=
  format (id mw) ++ "-start".

Definition end_name (mw : MaintenanceWindow obj datetime) : string :=
  format (id mw) ++ "-end".

(** [add] *)
Definition add (s : t) (mw : MaintenanceWindow obj datetime)
  : t * result unit :=
  match add_job s call_start_mw mw (start_name mw) (start mw) with
  | (s, Raise e) => (s, Raise e)
  | (s, Ok _) => add_job s call_end_mw mw (end_name mw) (end_ mw)
  end.

(** One [try: remove_job(name) except JobLookupError: log.info(line)]. *)
Definition try_remove_job (s : t) (name line : string) : t * result unit :=
  match remove_job s name with
  | (s, Ok _) => (s, Ok tt)
  | (s, Raise e) =>
      if isinstance e JobLookupError then (log_info s line, Ok tt)
      else (s, Raise e)
  end.

(** [remove] *)
Definition remove (s : t) (mw : MaintenanceWindow obj datetime)
  : t * result unit :=
  match try_remove_job s (start_name mw)
          ("Job to start " ++ format (id mw) ++ " already removed.") with
  | (s, Raise e) => (s, Raise e)
  | (s, Ok _) =>
      try_remove_job s (end_name mw)
        ("Job to end " ++ format (id mw) ++ " already removed.")
  end.

End Scheduler.

Arguments Job obj datetime : clear implicits.
Arguments t obj datetime : clear implicits.

End Scheduler.


(** * A reference implementation of the collaborators

    Enough of [datetime], of the Kytos entity classes and of a controller
    over a fixed topology to run the models on concrete inputs. *)

Module Reference.

(** ** datetime *)

(** A [datetime.datetime]; [tzinfo] is the UTC offset in minutes, [None]
    for a naive value. *)
Record datetime : Type := mkDT {
  year : N;
  month : N;
  day : N;
  hour : N;
  minute : N;
  second : N;
  microsecond : N;
  tzinfo : option Z
}.

Definition digit (n : N) : ascii := ascii_of_N (48 + n mod 10).

Definition pad2 (n : N) : string :=
  String (digit (n / 10)) (String (digit n) "").

Definition pad4 (n : N) : string :=
  String (digit (n / 1000)) (String (digit (n / 100)) (pad2 n)).

(** [%Y]: the C library writes a year below 1000 without leading zeros. *)
Definition year_str (y : N) : string :=
  if (y <? 10)%N then String (digit y) ""
  else if (y <? 100)%N then pad2 y
  else if (y <? 1000)%N then String (digit (y / 100)) (pad2 y)
  else pad4 y.

(** [%z] *)
Definition utcoffset_str (tz : option Z) : string :=
  match tz with
  | None => ""
  | Some off =>
      let a := Z.to_N (Z.abs off) in
      (if Z.ltb off 0 then "-" else "+") ++ pad2 (a / 60) ++ pad2 (a mod 60)
  end.

Definition directive (d : datetime) (c : ascii) : string :=
  if Ascii.eqb c "Y" then year_str (year d)
  else if Ascii.eqb c "m" then pad2 (month d)
  else if Ascii.eqb c "d" then pad2 (day d)
  else if Ascii.eqb c "H" then pad2 (hour d)
  else if Ascii.eqb c "M" then pad2 (minute d)
  else if Ascii.eqb c "S" then pad2 (second d)
  else if Ascii.eqb c "z" then utcoffset_str (tzinfo d)
  else String c "".

Fixpoint strftime (d : datetime) (fmt : string) : string :=
  match fmt with
  | EmptyString => ""
  | String c fmt' =>
      if Ascii.eqb c "%" then
        match fmt' with
        | EmptyString => "%"
        | String k fmt'' => directive d k ++ strftime d fmt''
        end
      else String c (strftime d fmt')
  end.

Definition digit_val (c : ascii) : option N :=
  let n := N_of_ascii c in
  if (48 <=? n)%N && (n <=? 57)%N then Some (n - 48)%N else None.

(** Read exactly [n] decimal digits. *)
Fixpoint read_digits (n : nat) (acc : N) (s : string)
  : option (N * string) :=
  match n with
  | O => Some (acc, s)
  | S n' =>
      match s with
      | EmptyString => None
      | String c s' =>
          match digit_val c with
          | Some k => read_digits n' (10 * acc + k)%N s'
          | None => None
          end
      end
  end.

(** Read [+HHMM] or [-HHMM]. *)
Definition read_utcoffset (s : string) : option (Z * string) :=
  match s with
  | EmptyString => None
  | String c s1 =>
      if Ascii.eqb c "+" || Ascii.eqb c "-" then
        match read_digits 2 0 s1 with
        | Some (h, s2) =>
            match read_digits 2 0 s2 with
            | Some (m, s3) =>
                if (h <? 24)%N && (m <? 60)%N then
                  let off := Z.of_N (60 * h + m) in
                  Some (if Ascii.eqb c "-" then Z.opp off else off, s3)
                else None
            | None => None
            end
        | None => None
        end
      else None
  end.

Definition read_field (n : nat) (s : string) (f : N -> datetime)
  : option (datetime * string) :=
  match read_digits n 0 s with
  | Some (v, s') => Some (f v, s')
  | None => None
  end.

Definition read_directive (k : ascii) (s : string) (d : datetime)
  : option (datetime * string) :=
  if Ascii.eqb k "Y" then
    read_field 4 s (fun v => mkDT v (month d) (day d) (hour d) (minute d)
                               (second d) (microsecond d) (tzinfo d))
  else if Ascii.eqb k "m" then
    read_field 2 s (fun v => mkDT (year d) v (day d) (hour d) (minute d)
                               (second d) (microsecond d) (tzinfo d))
  else if Ascii.eqb k "d" then
    read_field 2 s (fun v => mkDT (year d) (month d) v (hour d) (minute d)
                               (second d) (microsecond d) (tzinfo d))
  else if Ascii.eqb k "H" then
    read_field 2 s (fun v => mkDT (year d) (month d) (day d) v (minute d)
                               (second d) (microsecond d) (tzinfo d))
  else if Ascii.eqb k "M" then
    read_field 2 s (fun v => mkDT (year d) (month d) (day d) (hour d) v
                               (second d) (microsecond d) (tzinfo d))
  else if Ascii.eqb k "S" then
    read_field 2 s (fun v => mkDT (year d) (month d) (day d) (hour d)
                               (minute d) v (microsecond d) (tzinfo d))
  else if Ascii.eqb k "z" then
    match read_utcoffset s with
    | Some (off, s') =>
        Some (mkDT (year d) (month d) (day d) (hour d) (minute d)
                (second d) (microsecond d) (Some off), s')
    | None => None
    end
  else None.

(** Match [s] against [fmt], reading the fixed-width form that [strftime]
    writes. *)
Fixpoint read_format (fmt s : string) (d : datetime) : option datetime :=
  match fmt with
  | EmptyString => match s with EmptyString => Some d | _ => None end
  | String c fmt' =>
      if Ascii.eqb c "%" then
        match fmt' with
        | EmptyString => None
        | String k fmt'' =>
            match read_directive k s d with
            | Some (d', s') => read_format fmt'' s' d'
            | None => None
            end
        end
      else
        match s with
        | EmptyString => None
        | String c' s' =>
            if Ascii.eqb c c' then read_format fmt' s' d else None
        end
  end.

Definition is_leap (y : N) : bool :=
  ((y mod 4 =? 0) && negb (y mod 100 =? 0) || (y mod 400 =? 0))%N.

Definition days_in_month (y m : N) : N :=
  (if m =? 2 then (if is_leap y then 29 else 28)
   else if (m =? 4) || (m =? 6) || (m =? 9) || (m =? 11) then 30
   else 31)%N.

(** The range checks of the [datetime] constructor. *)
Definition valid_fields (d : datetime) : bool :=
  ((1 <=? year d) && (year d <=? 9999) &&
   (1 <=? month d) && (month d <=? 12) &&
   (1 <=? day d) && (day d <=? days_in_month (year d) (month d)) &&
   (hour d <? 24) && (minute d <? 60) && (second d <? 60) &&
   (microsecond d <? 1000000))%N.

Definition strptime {obj : Type} (v : pyval obj) (fmt : string)
  : result datetime :=
  match v with
  | VStr s =>
      match read_format fmt s (mkDT 1900 1 1 0 0 0 0 None) with
      | Some d => if valid_fields d then Ok d else Raise ValueError
      | None => Raise ValueError
      end
  | _ => Raise TypeError
  end.

(** Days since 1970-01-01 of a civil date, and back. *)
Definition days_from_civil (y m d : Z) : Z :=
  (let y := if m <=? 2 then y - 1 else y in
   let era := y / 400 in
   let yoe := y - era * 400 in
   let doy := (153 * (m + (if 2 <? m then -3 else 9)) + 2) / 5 + d - 1 in
   let doe := yoe * 365 + yoe / 4 - yoe / 100 + doy in
   era * 146097 + doe - 719468)%Z.

Definition civil_from_days (z : Z) : Z * Z * Z :=
  (let z := z + 719468 in
   let era := z / 146097 in
   let doe := z - era * 146097 in
   let yoe := (doe - doe / 1460 + doe / 36524 - doe / 146096) / 365 in
   let doy := doe - (365 * yoe + yoe / 4 - yoe / 100) in
   let mp := (5 * doy + 2) / 153 in
   let d := doy - (153 * mp + 2) / 5 + 1 in
   let m := mp + (if mp <? 10 then 3 else -9) in
   (yoe + era * 400 + (if m <=? 2 then 1 else 0), m, d))%Z.

(** [d.astimezone(pytz.utc)]. A value already at offset zero keeps its
    fields; a naive value is read in the system zone, UTC here. *)
Definition astimezone_utc (d : datetime) : result datetime :=
  match tzinfo d with
  | None => Ok (mkDT (year d) (month d) (day d) (hour d) (minute d)
                  (second d) (microsecond d) (Some 0%Z))
  | Some off =>
      if Z.eqb off 0 then Ok d
      else
        let days := days_from_civil (Z.of_N (year d)) (Z.of_N (month d))
                      (Z.of_N (day d)) in
        let total :=
          (days * 1440 + Z.of_N (60 * hour d + minute d) - off)%Z in
        let '(y, m, dd) := civil_from_days (total / 1440)%Z in
        let mins := (total mod 1440)%Z in
        if (1 <=? y)%Z && (y <=? 9999)%Z then
          Ok (mkDT (Z.to_N y) (Z.to_N m) (Z.to_N dd)
                (Z.to_N (mins / 60)) (Z.to_N (mins mod 60))
                (second d) (microsecond d) (Some 0%Z))
        else Raise (OtherError "OverflowError")
  end.

(** [d.replace(microsecond=0)] *)
Definition replace_microsecond_0 (d : datetime) : datetime :=
  mkDT (year d) (month d) (day d) (hour d) (minute d) (second d) 0
    (tzinfo d).

(** An aware value in UTC whose year [strftime] writes on four digits. *)
Definition utc_aware (d : datetime) : Prop :=
  valid_fields d = true /\ (1000 <= year d)%N /\ tzinfo d = Some 0%Z.

(** ** Kytos entities *)

(** Instances of [Interface], [TAG], [UNI] and [Link], each with the
    attributes that reach this module. *)
Inductive entity : Type :=
| EInterface (intf_id : string)
| ETag (tag_type : Z) (value : pyval entity)
| EUni (interface : pyval entity) (user_tag : entity)
| ELink (endpoint_a endpoint_b : pyval entity)
    (metadata : list (string * pyval entity)).

(** [d[key] = v] *)
Fixpoint dict_set (key : string) (v : pyval entity) (d : dict entity)
  : dict entity :=
  match d with
  | [] => [(key, v)]
  | (k, x) :: d' =>
      if String.eqb k key then (k, v) :: d' else (k, x) :: dict_set key v d'
  end.

(** [d.update(m)] *)
Definition dict_update (d m : dict entity) : dict entity :=
  fold_left (fun acc kv => dict_set (fst kv) (snd kv) acc) m d.

(** [TAG.from_dict]: [TAG(d.get('tag_type'), d.get('value'))], whose
    [TAGType(...)] accepts 1, 2 and 3. *)
Definition TAG_from_dict (v : pyval entity) : result entity :=
  match v with
  | VDict d =>
      match dict_get "tag_type" d with
      | VInt t =>
          if (1 <=? t)%Z && (t <=? 3)%Z then Ok (ETag t (dict_get "value" d))
          else Raise ValueError
      | _ => Raise ValueError
      end
  | _ => Raise AttributeError
  end.

Definition UNI (intf : pyval entity) (tag : entity) : result entity :=
  Ok (EUni intf tag).

(** [Link(endpoint_a, endpoint_b)] refuses an endpoint that is [None]. *)
Definition Link (a b : pyval entity) : result entity :=
  if is_None a || is_None b
  then Raise (OtherError "KytosLinkCreationError")
  else Ok (ELink a b []).

Definition extend_metadata (o : entity) (v : pyval entity) : result entity :=
  match o, v with
  | ELink a b md, VDict m => Ok (ELink a b (dict_update md m))
  | ELink _ _ _, _ => Raise TypeError
  | _, _ => Raise AttributeError
  end.

Definition get_metadata (o : entity) (key : string)
  : result (pyval entity) :=
  match o with
  | ELink _ _ md => Ok (dict_get key md)
  | _ => Raise AttributeError
  end.

Definition update_metadata (o : entity) (key : string) (v : pyval entity)
  : result entity :=
  match o with
  | ELink a b md => Ok (ELink a b (dict_set key v md))
  | _ => Raise AttributeError
  end.

Definition tag_as_dict (t : Z) (v : pyval entity) : pyval entity :=
  VDict [("tag_type", VInt t); ("value", v)].

Definition interface_as_dict (v : pyval entity) : result (pyval entity) :=
  match v with
  | VObj (EInterface i) => Ok (VDict [("id", VStr i)])
  | _ => Raise AttributeError
  end.

(** [link.get_metadata_as_dict()]: a TAG under [s_vlan] goes out as its
    dict. *)
Definition metadata_as_dict (md : dict entity) : dict entity :=
  map (fun kv =>
         match snd kv with
         | VObj (ETag t v) =>
             if String.eqb (fst kv) "s_vlan" then (fst kv, tag_as_dict t v)
             else kv
         | _ => kv
         end) md.

(** [o.as_dict()], with the keys that [from_dict] reads back. *)
Definition obj_as_dict (o : entity) : result (pyval entity) :=
  match o with
  | EInterface i => Ok (VDict [("id", VStr i)])
  | ETag t v => Ok (tag_as_dict t v)
  | EUni (VObj (EInterface i)) (ETag t v) =>
      Ok (VDict [("interface_id", VStr i); ("tag", tag_as_dict t v)])
  | EUni _ _ => Raise AttributeError
  | ELink a b md =>
      da <- interface_as_dict a ;;
      db <- interface_as_dict b ;;
      Ok (VDict [("endpoint_a", da); ("endpoint_b", db);
                 ("metadata", VDict (metadata_as_dict md))])
  end.

(** [f'{v}'] for the values an id takes. *)
Definition format (v : pyval entity) : string :=
  match v with
  | VStr s => s
  | VNone => "None"
  | VBool true => "True"
  | VBool false => "False"
  | VInt z => DecimalString.NilZero.string_of_int (Z.to_int z)
  | _ => "<object>"
  end.

#[export] Instance library : Library entity datetime :=
  @Build_Library entity datetime strftime (@strptime entity) astimezone_utc
    TAG_from_dict UNI Link extend_metadata get_metadata update_metadata
    obj_as_dict format.

(** A controller over the interfaces of a fixed topology. *)
Definition controller_of (topology : list string) : Controller entity :=
  fun v =>
    match v with
    | VNone => Ok VNone
    | VStr s =>
        if existsb (String.eqb s) topology then Ok (VObj (EInterface s))
        else Ok VNone
    | _ => Raise AttributeError
    end.

End Reference.

(** ** Sample data *)

Module Sample.
Import Reference.

Definition port1 : string := "00:00:00:00:00:00:00:01:1".
Definition port2 : string := "00:00:00:00:00:00:00:02:1".
Definition port9 : string := "00:00:00:00:00:00:00:09:1".

(** A controller that knows [port1] and [port2], and not [port9]. *)
Definition ctl : Controller entity := controller_of [port1; port2].

Definition t_start : datetime := mkDT 2021 3 4 5 6 7 0 (Some 0%Z).
Definition t_end : datetime := mkDT 2021 3 4 11 6 7 0 (Some 0%Z).
Definition s_start : string := "2021-03-04T05:06:07+0000".
Definition s_end : string := "2021-03-04T11:06:07+0000".
Definition s_later : string := "2021-03-04T09:06:07+0000".
Definition t_later : datetime := mkDT 2021 3 4 9 6 7 0 (Some 0%Z).

Definition uni1 : entity :=
  EUni (VObj (EInterface port1)) (ETag 1 (VInt 100)).

Definition link1 : entity :=
  ELink (VObj (EInterface port1)) (VObj (EInterface port2))
    [("s_vlan", VObj (ETag 1 (VInt 7)))].

Definition window_of (l : list (pyval entity))
  : MaintenanceWindow entity datetime :=
  mkMW (VStr "mw1") t_start t_end l ctl.

(** The window of the scenario: one switch. *)
Definition w_sw1 := window_of [VStr "SW1"].

(** A window over a switch, a UNI and a link. *)
Definition w_mixed := window_of [VStr "SW1"; VObj uni1; VObj link1].

Definition record_of (l : list (pyval entity)) : dict entity :=
  [("id", VStr "mw1"); ("start", VStr s_start); ("end", VStr s_end);
   ("items", VList l)].

(** A UNI descriptor and a link descriptor that name [port9]. *)
Definition uni_unknown : pyval entity :=
  VDict [("interface_id", VStr port9);
         ("tag", VDict [("tag_type", VInt 1); ("value", VInt 100)])].

Definition link_unknown : pyval entity :=
  VDict [("endpoint_a", VDict [("id", VStr port9)]);
         ("endpoint_b", VDict [("id", VStr port2)])].

(** A dict with neither [interface_id] nor the endpoint keys. *)
Definition shapeless : pyval entity := VDict [("name", VStr "SW1")].

End Sample.

(** * Auxiliary notions for the stated properties *)

Section Notions.
Context {obj datetime : Type} {L : Library obj datetime}.

(** A Kytos object, as opposed to plain data. *)
Definition is_obj (v : pyval obj) : bool :=
  match v with VObj _ => true | _ => false end.

(** How [as_dict] writes an item: as the item's own [as_dict()], or as
    the item itself when that call raises [AttributeError] or [TypeError]. *)
Definition written (i o : pyval obj) : Prop :=
  call_as_dict i = Ok o \/
  (o = i /\ exists e, call_as_dict i = Raise e /\
                     isinstance e AttributeError || isinstance e TypeError
                     = true).

(** How the [try] statement of [from_dict] and [update] reads an entry. *)
Definition reads (c : Controller obj) (i item : pyval obj) : Prop :=
  item_from_dict i c = Ok item.

(** One call on a [Scheduler]. *)
Inductive call : Type :=
| call_add (mw : MaintenanceWindow obj datetime)
| call_remove (mw : MaintenanceWindow obj datetime).

(** The scheduler after a call, whether the call returned or raised. *)
Definition after_call (s : Scheduler.t obj datetime) (k : call)
  : Scheduler.t obj datetime :=
  match k with
  | call_add mw => fst (Scheduler.add s mw)
  | call_remove mw => fst (Scheduler.remove s mw)
  end.

(** The scheduler after a sequence of calls on a new instance. *)
Definition after_calls (ks : list call) : Scheduler.t obj datetime :=
  fold_left after_call ks Scheduler.init.

End Notions.

(** * Properties *)

Unset Implicit Arguments.

(** ** Scheduler *)

Section SchedulerFacts.
Context {obj datetime : Type} {L : Library obj datetime}.

Import Scheduler.

Abbreviation window := (MaintenanceWindow obj datetime).

Lemma append_cancel_l (p a b : string) : p ++ a = p ++ b -> a = b.
Proof.
  induction p as [|c p IH]; simpl; intros H.
  - exact H.
  - injection H as H. auto.
Qed.

Lemma start_name_neq_end_name (mw : window) :
  String.eqb (start_name mw) (end_name mw) = false.
Proof.
  apply String.eqb_neq. unfold start_name, end_name. intros H.
  apply append_cancel_l in H. discriminate H.
Qed.

Lemma end_name_neq_start_name (mw : window) :
  String.eqb (end_name mw) (start_name mw) = false.
Proof. rewrite String.eqb_sym. apply start_name_neq_end_name. Qed.

Lemma has_job_In (n : string) (l : list (Job obj datetime)) :
  has_job n l = true <-> In n (job_names l).
Proof.
  unfold has_job, job_names. rewrite existsb_exists, in_map_iff. split.
  - intros [j [Hin Heq]]. apply String.eqb_eq in Heq. eauto.
  - intros [j [Heq Hin]]. exists j. split; [assumption|].
    apply String.eqb_eq. assumption.
Qed.

Lemma has_job_drop_same (n : string) (l : list (Job obj datetime)) :
  has_job n (drop_job n l) = false.
Proof.
  induction l as [|j l IH]; simpl; [reflexivity|].
  destruct (String.eqb (job_id j) n) eqn:E; simpl; [assumption|].
  rewrite E. assumption.
Qed.

Lemma has_job_drop_other (n m : string) (l : list (Job obj datetime)) :
  String.eqb m n = false -> has_job n (drop_job m l) = has_job n l.
Proof.
  intros Hnm. induction l as [|j l IH]; simpl; [reflexivity|].
  destruct (String.eqb (job_id j) m) eqn:E; simpl.
  - apply String.eqb_eq in E. subst m. rewrite Hnm. assumption.
  - rewrite IH. reflexivity.
Qed.

Lemma drop_job_absent (n : string) (l : list (Job obj datetime)) :
  has_job n l = false -> drop_job n l = l.
Proof.
  induction l as [|j l IH]; simpl; [reflexivity|]. intros H.
  apply orb_false_iff in H. destruct H as [H1 H2].
  rewrite H1. simpl. f_equal. auto.
Qed.

Lemma has_job_app (n : string) (l1 l2 : list (Job obj datetime)) :
  has_job n (l1 ++ l2) = has_job n l1 || has_job n l2.
Proof. unfold has_job. apply existsb_app. Qed.

(** What one guarded removal does: never an error, the named job gone,
    one log line exactly when there was nothing to remove. *)
Lemma try_remove_job_spec (s : t obj datetime) (n line : string) :
  try_remove_job s n line =
  ({| jobs := drop_job n (jobs s);
      log := if has_job n (jobs s) then log s else log s ++ [line] |},
   Ok tt).
Proof.
  unfold try_remove_job, remove_job.
  destruct (has_job n (jobs s)) eqn:E; simpl; [reflexivity|].
  unfold log_info. rewrite (drop_job_absent _ _ E). reflexivity.
Qed.

(** C6. [Scheduler.remove] never raises, whatever jobs are present; it
    removes the [-end] job whether or not the [-start] job was there;
    afterwards neither job exists, and a second call is again without
    error and leaves the jobs as they are. *)
Theorem remove_idempotent (s : t obj datetime) (mw : window) :
  exists s1 s2,
    remove s mw = (s1, Ok tt) /\
    jobs s1 = drop_job (end_name mw) (drop_job (start_name mw) (jobs s)) /\
    has_job (start_name mw) (jobs s1) = false /\
    has_job (end_name mw) (jobs s1) = false /\
    remove s1 mw = (s2, Ok tt) /\
    jobs s2 = jobs s1.
Proof.
  assert (Hrm : forall s0 : t obj datetime, exists s' : t obj datetime,
             remove s0 mw = (s', Ok tt) /\
             jobs s' = drop_job (end_name mw)
                         (drop_job (start_name mw) (jobs s0))).
  { intros s0. unfold remove. rewrite !try_remove_job_spec. simpl.
    eexists. split; reflexivity. }
  destruct (Hrm s) as [s1 [H1 J1]]. destruct (Hrm s1) as [s2 [H2 J2]].
  assert (Hs : has_job (start_name mw) (jobs s1) = false).
  { rewrite J1, has_job_drop_other by apply end_name_neq_start_name.
    apply has_job_drop_same. }
  assert (He : has_job (end_name mw) (jobs s1) = false).
  { rewrite J1. apply has_job_drop_same. }
  exists s1, s2. repeat split; try assumption.
  rewrite J2, (drop_job_absent _ _ Hs). apply drop_job_absent. assumption.
Qed.

(** Which jobs a removal leaves alone: every job under another name. *)
Lemma remove_keeps_others (s : t obj datetime) (mw : window) (n : string) :
  String.eqb (start_name mw) n = false ->
  String.eqb (end_name mw) n = false ->
  has_job n (jobs (fst (remove s mw))) = has_job n (jobs s).
Proof.
  intros Hs He. unfold remove. rewrite !try_remove_job_spec. simpl.
  rewrite !has_job_drop_other by assumption. reflexivity.
Qed.

Lemma job_names_app (l1 l2 : list (Job obj datetime)) :
  job_names (l1 ++ l2) = (job_names l1 ++ job_names l2)%list.
Proof. unfold job_names. apply map_app. Qed.

Lemma NoDup_snoc (A : Type) (l : list A) (x : A) :
  NoDup l -> ~ In x l -> NoDup (l ++ [x])%list.
Proof.
  intros Hl Hx. induction Hl as [|y l Hy Hl IH]; simpl.
  - constructor; [intros []|constructor].
  - constructor.
    + rewrite in_app_iff. intros [H|[H|[]]]; [contradiction|].
      subst. apply Hx. left. reflexivity.
    + apply IH. intros H. apply Hx. right. assumption.
Qed.

(** What one [add_job] does to a store whose names are distinct. *)
Lemma add_job_NoDup (s : t obj datetime) (f : method) (w : window) (n : string)
    (d : datetime) :
  NoDup (job_names (jobs s)) ->
  NoDup (job_names (jobs (fst (add_job s f w n d)))).
Proof.
  intros H. unfold add_job. destruct (has_job n (jobs s)) eqn:E; simpl.
  - assumption.
  - rewrite job_names_app. simpl. apply NoDup_snoc; [assumption|].
    intros Hin. apply has_job_In in Hin. congruence.
Qed.

(** What [add] does when neither name is taken. *)
Lemma add_fresh (s : t obj datetime) (mw : window) :
  has_job (start_name mw) (jobs s) = false ->
  has_job (end_name mw) (jobs s) = false ->
  add s mw =
  ({| jobs := jobs s ++
        [mkJob (start_name mw) call_start_mw mw (start mw);
         mkJob (end_name mw) call_end_mw mw (end_ mw)];
      log := log s |}, Ok tt).
Proof.
  intros Hs He. unfold add, add_job. rewrite Hs. simpl.
  rewrite has_job_app, He. simpl. rewrite start_name_neq_end_name. simpl.
  rewrite <- app_assoc. reflexivity.
Qed.

(** What [remove] leaves in the store. *)
Lemma remove_jobs (s : t obj datetime) (mw : window) :
  jobs (fst (remove s mw)) =
  drop_job (end_name mw) (drop_job (start_name mw) (jobs s)).
Proof. unfold remove. rewrite !try_remove_job_spec. reflexivity. Qed.

(** C7, as the code has it. [Scheduler.add] never duplicates a job name:
    a store with distinct names stays so. With neither name taken both
    jobs are registered and the call returns. A name that is taken is not
    replaced: the call raises [ConflictingIdError] and every job already
    there stays. Replacing is [remove] followed by [add], which always
    returns with the two new jobs. *)
Theorem add_never_duplicates (s : t obj datetime) (mw : window) :
  NoDup (job_names (jobs s)) ->
  NoDup (job_names (jobs (fst (add s mw)))) /\
  (has_job (start_name mw) (jobs s) = false ->
   has_job (end_name mw) (jobs s) = false ->
   add s mw =
   ({| jobs := jobs s ++
         [mkJob (start_name mw) call_start_mw mw (start mw);
          mkJob (end_name mw) call_end_mw mw (end_ mw)];
       log := log s |}, Ok tt)) /\
  (has_job (start_name mw) (jobs s) = true ->
   add s mw = (s, Raise ConflictingIdError)) /\
  (has_job (start_name mw) (jobs s) = false ->
   has_job (end_name mw) (jobs s) = true ->
   snd (add s mw) = Raise ConflictingIdError /\
   forall j, In j (jobs s) -> In j (jobs (fst (add s mw)))) /\
  (snd (add (fst (remove s mw)) mw) = Ok tt /\
   jobs (fst (add (fst (remove s mw)) mw)) =
   (drop_job (end_name mw) (drop_job (start_name mw) (jobs s)) ++
    [mkJob (start_name mw) call_start_mw mw (start mw);
     mkJob (end_name mw) call_end_mw mw (end_ mw)])%list).
Proof.
  intros Hnd. split; [|split; [|split; [|split]]].
  - unfold add.
    destruct (add_job s call_start_mw mw (start_name mw) (start mw))
      as [s1 r1] eqn:E1.
    pose proof (add_job_NoDup s call_start_mw mw (start_name mw) (start mw) Hnd)
      as H1.
    rewrite E1 in H1. simpl in H1. destruct r1; simpl; [|assumption].
    apply add_job_NoDup. assumption.
  - apply add_fresh.
  - intros Hs. unfold add, add_job. rewrite Hs. reflexivity.
  - intros Hs He. unfold add, add_job. rewrite Hs. simpl.
    rewrite has_job_app, He. simpl. split; [reflexivity|].
    intros j Hj. apply in_or_app. left. assumption.
  - pose proof (remove_jobs s mw) as Hj.
    rewrite add_fresh; simpl.
    + rewrite Hj. split; reflexivity.
    + rewrite Hj, has_job_drop_other by apply end_name_neq_start_name.
      apply has_job_drop_same.
    + rewrite Hj. apply has_job_drop_same.
Qed.

End SchedulerFacts.

(** ** MaintenanceWindow: reading items *)

Section ItemFacts.
Context {obj datetime : Type} {L : Library obj datetime}.

Abbreviation value := (pyval obj).

Lemma getitem_non_dict (v : value) (key : string) :
  is_dict v = false -> getitem v key = Raise TypeError.
Proof. destruct v; simpl; intros H; try reflexivity; discriminate H. Qed.

(** An item that is not a dict raises [TypeError] at the first subscript
    of [uni_from_dict], and the handler keeps the item itself. *)
Lemma item_from_dict_non_dict (v : value) (c : Controller obj) :
  is_dict v = false -> item_from_dict v c = Ok v.
Proof.
  intros H. unfold item_from_dict, uni_from_dict.
  rewrite (getitem_non_dict _ _ H). reflexivity.
Qed.

(** A dict without [interface_id] is read as a link. *)
Lemma item_from_dict_no_interface_id (d : dict obj) (c : Controller obj) :
  lookup "interface_id" d = None ->
  item_from_dict (VDict d) c = link_from_dict (VDict d) c.
Proof.
  intros H. unfold item_from_dict, uni_from_dict. simpl.
  unfold dict_getitem. rewrite H. reflexivity.
Qed.

(** A dict with neither [interface_id] nor [endpoint_a]: the [KeyError] of
    the link reading is raised inside the handler and leaves the [try]. *)
Lemma item_from_dict_shapeless (d : dict obj) (c : Controller obj) :
  lookup "interface_id" d = None ->
  lookup "endpoint_a" d = None ->
  item_from_dict (VDict d) c = Raise KeyError.
Proof.
  intros Hi Ha. rewrite item_from_dict_no_interface_id by assumption.
  simpl. unfold dict_getitem. rewrite Ha. reflexivity.
Qed.

Lemma bind_Ok_inv (A B : Type) (r : result A) (k : A -> result B) (b : B) :
  bind r k = Ok b -> exists a, r = Ok a /\ k a = Ok b.
Proof. destruct r; simpl; intros H; [eauto | discriminate H]. Qed.

(** [link_from_dict] has one [return], and it returns the link. *)
Lemma link_from_dict_returns_object (v : value) (c : Controller obj)
    (r : value) :
  link_from_dict v c = Ok r -> exists link, r = VObj link.
Proof.
  unfold link_from_dict. destruct v; try discriminate. intros H.
  repeat (apply bind_Ok_inv in H; destruct H as [? [_ H]]).
  injection H as H. eauto.
Qed.

(** A UNI descriptor whose interface the controller does not find. *)
Lemma uni_from_dict_not_found (d : dict obj) (c : Controller obj)
    (intf_id t : value) (tag : obj) :
  lookup "interface_id" d = Some intf_id ->
  c intf_id = Ok VNone ->
  lookup "tag" d = Some t ->
  TAG_from_dict t = Ok tag ->
  item_from_dict (VDict d) c = Ok VNone.
Proof.
  intros Hi Hc Ht Htag. unfold item_from_dict, uni_from_dict, intf_from_dict.
  simpl. unfold dict_getitem. rewrite Hi. simpl. rewrite Hc. simpl.
  rewrite Ht. simpl. rewrite Htag. reflexivity.
Qed.

Lemma from_dict_items_app (l1 l2 acc : list value) (c : Controller obj) :
  from_dict_items (l1 ++ l2) c acc =
  (r <- from_dict_items l1 c acc ;;
   match r with
   | None => Ok None
   | Some acc' => from_dict_items l2 c acc'
   end).
Proof.
  revert acc. induction l1 as [|i l1 IH]; intros acc; simpl; [reflexivity|].
  destruct (item_from_dict i c) as [item|e]; simpl; [|reflexivity].
  destruct (is_None item); [reflexivity | apply IH].
Qed.

Lemma update_items_app (l1 l2 acc : list value) (c : Controller obj) :
  update_items (l1 ++ l2) c acc =
  (acc' <- update_items l1 c acc ;; update_items l2 c acc').
Proof.
  revert acc. induction l1 as [|i l1 IH]; intros acc; simpl; [reflexivity|].
  destruct (item_from_dict i c) as [item|e]; simpl; [|reflexivity].
  destruct (truthy item); apply IH.
Qed.

(** Items that are not dicts go through both loops without an exception:
    [from_dict] stops with [None] at an item that is [None], [update]
    keeps the true ones. *)
Lemma from_dict_items_non_dict (l acc : list value) (c : Controller obj) :
  Forall (fun v => is_dict v = false) l ->
  from_dict_items l c acc =
  Ok (if existsb is_None l then None else Some (acc ++ l)%list).
Proof.
  intros H. revert acc. induction H as [|v l Hv Hl IH]; intros acc; simpl.
  - rewrite app_nil_r. reflexivity.
  - rewrite (item_from_dict_non_dict _ c Hv). simpl.
    destruct (is_None v); simpl; [reflexivity|].
    rewrite IH, <- app_assoc. reflexivity.
Qed.

Lemma update_items_non_dict (l acc : list value) (c : Controller obj) :
  Forall (fun v => is_dict v = false) l ->
  update_items l c acc = Ok (acc ++ filter truthy l)%list.
Proof.
  intros H. revert acc. induction H as [|v l Hv Hl IH]; intros acc; simpl.
  - rewrite app_nil_r. reflexivity.
  - rewrite (item_from_dict_non_dict _ c Hv). simpl.
    destruct (truthy v); rewrite IH; [|reflexivity].
    rewrite <- app_assoc. reflexivity.
Qed.

End ItemFacts.

(** ** MaintenanceWindow: [from_dict] and [update] *)

Section WindowFacts.
Context {obj datetime : Type} {L : Library obj datetime}.

Abbreviation value := (pyval obj).
Abbreviation window := (MaintenanceWindow obj datetime).

Lemma dict_getitem_lookup (key : string) (d : dict obj) (v : value) :
  lookup key d = Some v -> dict_getitem key d = Ok v.
Proof. unfold dict_getitem. intros ->. reflexivity. Qed.

Lemma dict_contains_lookup (key : string) (d : dict obj) (v : value) :
  lookup key d = Some v -> dict_contains key d = true.
Proof. unfold dict_contains. intros ->. reflexivity. Qed.

(** A window built by [__init__] has a true [id]: the one it was given,
    or the hexadecimal digits of a fresh UUID. *)
Lemma init_id_truthy (s e : datetime) (c : Controller obj)
    (l : option (list value)) (mw_id : value) (fresh : string) :
  fresh <> "" -> truthy (id (init s e c l mw_id fresh)) = true.
Proof.
  intros H. unfold init. simpl. destruct (truthy mw_id) eqn:E; [exact E|].
  simpl. apply negb_true_iff, String.eqb_neq. exact H.
Qed.

(** An item that the [try] statement turns into a false value leaves no
    trace in the list [update] builds. *)
Lemma update_items_skip (pre post acc : list value) (v r : value)
    (c : Controller obj) :
  item_from_dict v c = Ok r -> truthy r = false ->
  update_items (pre ++ v :: post) c acc = update_items (pre ++ post) c acc.
Proof.
  intros Hv Hr. rewrite !update_items_app.
  destruct (update_items pre c acc) as [acc'|e]; simpl; [|reflexivity].
  rewrite Hv. simpl. rewrite Hr. reflexivity.
Qed.

(** What [update] returns once both timestamps are dealt with. *)
Lemma update_after_times (self self1 self2 : window) (patch : dict obj)
    (c : Controller obj) :
  update_start self patch = (self1, Ok tt) ->
  update_end self1 patch = (self2, Ok tt) ->
  update self patch c = update_item_list self2 patch c.
Proof. intros H1 H2. unfold update. rewrite H1, H2. reflexivity. Qed.

Lemma update_start_frame (self : window) (patch : dict obj) :
  let self' := fst (update_start self patch) in
  id self' = id self /\ controller self' = controller self /\
  end_ self' = end_ self /\ items self' = items self /\
  (dict_contains "start" patch = false -> start self' = start self) /\
  (forall e, snd (update_start self patch) = Raise e -> self' = self).
Proof.
  unfold update_start. destruct (dict_contains "start" patch).
  - destruct (bind _ _); simpl; repeat split; try reflexivity;
      intros; discriminate.
  - simpl. repeat split; reflexivity.
Qed.

Lemma update_end_frame (self : window) (patch : dict obj) :
  let self' := fst (update_end self patch) in
  id self' = id self /\ controller self' = controller self /\
  start self' = start self /\ items self' = items self /\
  (dict_contains "end" patch = false -> end_ self' = end_ self) /\
  (forall e, snd (update_end self patch) = Raise e -> self' = self).
Proof.
  unfold update_end. destruct (dict_contains "end" patch).
  - destruct (bind _ _); simpl; repeat split; try reflexivity;
      intros; discriminate.
  - simpl. repeat split; reflexivity.
Qed.

Lemma update_item_list_frame (self : window) (patch : dict obj)
    (c : Controller obj) :
  let self' := fst (update_item_list self patch c) in
  id self' = id self /\ controller self' = controller self /\
  start self' = start self /\ end_ self' = end_ self /\
  (dict_contains "items" patch = false -> items self' = items self) /\
  (forall e, snd (update_item_list self patch c) = Raise e -> self' = self).
Proof.
  unfold update_item_list. destruct (dict_contains "items" patch).
  - destruct (bind _ _); simpl; repeat split; try reflexivity;
      intros; discriminate.
  - simpl. repeat split; reflexivity.
Qed.

(** C9. Whatever the patch and however the call ends, [update] leaves
    [id] as it was, and leaves each of [start], [end] and [items] as it
    was when the patch has no such key. *)
Theorem update_frame (self : window) (patch : dict obj)
    (c : Controller obj) :
  let self' := fst (update self patch c) in
  id self' = id self /\
  (dict_contains "start" patch = false -> start self' = start self) /\
  (dict_contains "end" patch = false -> end_ self' = end_ self) /\
  (dict_contains "items" patch = false -> items self' = items self).
Proof.
  unfold update.
  pose proof (update_start_frame self patch) as Hs.
  destruct (update_start self patch) as [s1 r1]. simpl in Hs.
  destruct Hs as (Hid1 & _ & He1 & Hi1 & Hs1 & Hx1).
  destruct r1 as [[]|e1]; simpl.
  2:{ rewrite (Hx1 e1 eq_refl). repeat split; reflexivity. }
  pose proof (update_end_frame s1 patch) as He.
  destruct (update_end s1 patch) as [s2 r2]. simpl in He.
  destruct He as (Hid2 & _ & Hs2 & Hi2 & He2 & Hx2).
  destruct r2 as [[]|e2]; simpl.
  2:{ rewrite (Hx2 e2 eq_refl). repeat split; auto. }
  pose proof (update_item_list_frame s2 patch c) as Hi.
  destruct Hi as (Hid3 & _ & Hs3 & He3 & Hi3 & _).
  repeat split.
  - congruence.
  - intros H. rewrite Hs3, Hs2. auto.
  - intros H. rewrite He3. rewrite He2 by assumption. assumption.
  - intros H. rewrite Hi3 by assumption. congruence.
Qed.

(** C8, as the code has it. A [start] or [end] value that fails to parse
    ends [update] with that exception, and [id] and [items] are never
    touched. When it is [start], or when it is [end] and the patch has no
    [start], the window is as before the call. When [start] went through
    and it is [end], the window already holds the new [start], with [end]
    as before the call. *)
Theorem update_invalid_time (self : window) (patch : dict obj)
    (c : Controller obj) :
  (forall v e,
      lookup "start" patch = Some v -> parse_time v = Raise e ->
      update self patch c = (self, Raise e)) /\
  (forall v e,
      lookup "end" patch = Some v -> parse_time v = Raise e ->
      (lookup "start" patch = None ->
       update self patch c = (self, Raise e)) /\
      (forall vs d,
          lookup "start" patch = Some vs -> parse_time vs = Ok d ->
          update self patch c = (set_start self d, Raise e))).
Proof.
  split.
  - intros v e Hl Hp. unfold update, update_start.
    rewrite (dict_contains_lookup _ _ _ Hl), (dict_getitem_lookup _ _ _ Hl).
    simpl. rewrite Hp. reflexivity.
  - intros v e Hl Hp. split.
    + intros Hs. unfold update, update_start, update_end, dict_contains.
      rewrite Hs, Hl. rewrite (dict_getitem_lookup _ _ _ Hl).
      simpl. rewrite Hp. reflexivity.
    + intros vs d Hs Hd.
      unfold update, update_start, update_end, dict_contains.
      rewrite Hs, Hl.
      rewrite (dict_getitem_lookup _ _ _ Hs), (dict_getitem_lookup _ _ _ Hl).
      simpl. rewrite Hd, Hp. reflexivity.
Qed.

(** C5, as the code has it. Items that are not dicts (strings, numbers,
    lists, [None], Kytos objects) raise nothing in either operation and
    are kept as they are, except that [from_dict] returns [None] when one
    of them is [None] and [update] drops the false ones. *)
Theorem non_dict_items_pass_through (mw_dict : dict obj)
    (c : Controller obj) (l : list value) :
  lookup "items" mw_dict = Some (VList l) ->
  Forall (fun v => is_dict v = false) l ->
  (forall self self1 self2 : window,
      update_start self mw_dict = (self1, Ok tt) ->
      update_end self1 mw_dict = (self2, Ok tt) ->
      update self mw_dict c = (set_items self2 (filter truthy l), Ok tt)) /\
  (forall fresh vs ve s e,
      lookup "start" mw_dict = Some vs -> parse_time vs = Ok s ->
      lookup "end" mw_dict = Some ve -> parse_time ve = Ok e ->
      from_dict mw_dict c fresh =
      Ok (if existsb is_None l then None
          else Some (init s e c (Some l) (dict_get "id" mw_dict) fresh))).
Proof.
  intros Hl Hnd. split.
  - intros self self1 self2 H1 H2.
    rewrite (update_after_times self self1 self2 mw_dict c H1 H2). unfold update_item_list.
    rewrite (dict_contains_lookup _ _ _ Hl), (dict_getitem_lookup _ _ _ Hl).
    simpl. rewrite (update_items_non_dict l [] c Hnd). reflexivity.
  - intros fresh vs ve s e Hs Hps He Hpe. unfold from_dict.
    rewrite (dict_getitem_lookup _ _ _ Hs). simpl. rewrite Hps. simpl.
    rewrite (dict_getitem_lookup _ _ _ He). simpl. rewrite Hpe. simpl.
    rewrite (dict_getitem_lookup _ _ _ Hl). simpl.
    rewrite (from_dict_items_non_dict l [] c Hnd). simpl.
    destruct (existsb is_None l); reflexivity.
Qed.

End WindowFacts.

(** ** Unresolved references and the round trip *)

Section Resolution.
Context {obj datetime : Type} {L : Library obj datetime}.

Abbreviation value := (pyval obj).
Abbreviation window := (MaintenanceWindow obj datetime).

Lemma Forall_no_None (l : list value) :
  Forall (fun v => is_dict v = false /\ is_None v = false) l ->
  Forall (fun v => is_dict v = false) l /\ existsb is_None l = false.
Proof.
  induction 1 as [|v l [Hd Hn] _ [IH1 IH2]]; simpl.
  - split; [constructor | reflexivity].
  - split; [constructor; assumption|]. rewrite Hn, IH2. reflexivity.
Qed.

(** The loop of [from_dict] around one dict item, with plain tokens on
    both sides. *)
Lemma from_dict_items_around (pre post : list value) (v : value)
    (c : Controller obj) :
  Forall (fun v => is_dict v = false /\ is_None v = false) (pre ++ post) ->
  from_dict_items (pre ++ v :: post) c [] =
  (item <- item_from_dict v c ;;
   if is_None item then Ok None else Ok (Some (pre ++ item :: post)%list)).
Proof.
  intros H. apply Forall_app in H. destruct H as [Hpre Hpost].
  apply Forall_no_None in Hpre. destruct Hpre as [Hpre Npre].
  apply Forall_no_None in Hpost. destruct Hpost as [Hpost Npost].
  rewrite from_dict_items_app, (from_dict_items_non_dict pre [] c Hpre), Npre.
  simpl. destruct (item_from_dict v c) as [item|e]; simpl; [|reflexivity].
  destruct (is_None item); [reflexivity|].
  rewrite (from_dict_items_non_dict post _ c Hpost), Npost, <- app_assoc.
  reflexivity.
Qed.

(** The loop of [update] around one dict item. *)
Lemma update_items_around (pre post : list value) (v : value)
    (c : Controller obj) :
  Forall (fun v => is_dict v = false) (pre ++ post) ->
  update_items (pre ++ v :: post) c [] =
  (item <- item_from_dict v c ;;
   Ok (filter truthy pre ++
       (if truthy item then [item] else []) ++ filter truthy post)%list).
Proof.
  intros H. apply Forall_app in H. destruct H as [Hpre Hpost].
  rewrite update_items_app, (update_items_non_dict pre [] c Hpre). simpl.
  destruct (item_from_dict v c) as [item|e]; simpl; [|reflexivity].
  destruct (truthy item); rewrite (update_items_non_dict post _ c Hpost).
  - rewrite <- app_assoc. reflexivity.
  - reflexivity.
Qed.

(** C3 on the code. A link descriptor never makes [from_dict] return
    [None], whatever the controller finds for its endpoints: among plain
    tokens, the call either ends with an exception or returns a window
    that holds the link [link_from_dict] built. *)
Theorem from_dict_unresolved_link (mw_dict : dict obj) (c : Controller obj)
    (fresh : string) (pre post : list value) (d : dict obj) :
  lookup "interface_id" d = None ->
  lookup "items" mw_dict = Some (VList (pre ++ VDict d :: post)) ->
  Forall (fun v => is_dict v = false /\ is_None v = false) (pre ++ post) ->
  (exists e, from_dict mw_dict c fresh = Raise e) \/
  (exists w link,
      from_dict mw_dict c fresh = Ok (Some w) /\
      items w = (pre ++ VObj link :: post)%list).
Proof.
  intros Hd Hl Hnd. unfold from_dict.
  destruct (dict_getitem "start" mw_dict) as [s|e]; simpl; [|eauto].
  destruct (parse_time s) as [s'|e]; simpl; [|eauto].
  destruct (dict_getitem "end" mw_dict) as [e0|e]; simpl; [|eauto].
  destruct (parse_time e0) as [e'|e]; simpl; [|eauto].
  rewrite (dict_getitem_lookup _ _ _ Hl). simpl.
  rewrite (from_dict_items_around pre post (VDict d) c Hnd).
  rewrite (item_from_dict_no_interface_id d c Hd).
  destruct (link_from_dict (VDict d) c) as [r|e] eqn:E; simpl; [|eauto].
  destruct (link_from_dict_returns_object _ _ _ E) as [link ->]. simpl.
  right. eexists. exists link. split; reflexivity.
Qed.

(** The other half of C3: a UNI descriptor whose interface the controller
    does not find makes [from_dict] return [None]. *)
Lemma from_dict_unresolved_uni (mw_dict : dict obj) (c : Controller obj)
    (fresh : string) (pre post : list value) (d : dict obj)
    (vs ve intf_id t : value) (s e : datetime) (tag : obj) :
  lookup "start" mw_dict = Some vs -> parse_time vs = Ok s ->
  lookup "end" mw_dict = Some ve -> parse_time ve = Ok e ->
  lookup "items" mw_dict = Some (VList (pre ++ VDict d :: post)) ->
  Forall (fun v => is_dict v = false /\ is_None v = false) (pre ++ post) ->
  lookup "interface_id" d = Some intf_id -> c intf_id = Ok VNone ->
  lookup "tag" d = Some t -> TAG_from_dict t = Ok tag ->
  from_dict mw_dict c fresh = Ok None.
Proof.
  intros Hs Hps He Hpe Hl Hnd Hi Hc Ht Htag. unfold from_dict.
  rewrite (dict_getitem_lookup _ _ _ Hs). simpl. rewrite Hps. simpl.
  rewrite (dict_getitem_lookup _ _ _ He). simpl. rewrite Hpe. simpl.
  rewrite (dict_getitem_lookup _ _ _ Hl). simpl.
  rewrite (from_dict_items_around pre post (VDict d) c Hnd).
  rewrite (uni_from_dict_not_found d c intf_id t tag Hi Hc Ht Htag).
  reflexivity.
Qed.

(** C4 on the code. A link descriptor is never dropped by [update],
    whatever the controller finds for its endpoints: among plain tokens,
    the call either ends with an exception, [items] untouched, or returns
    with the link [link_from_dict] built in the new [items]. *)
Theorem update_unresolved_link (self : window) (patch : dict obj)
    (c : Controller obj) (pre post : list value) (d : dict obj) :
  lookup "interface_id" d = None ->
  lookup "items" patch = Some (VList (pre ++ VDict d :: post)) ->
  Forall (fun v => is_dict v = false) (pre ++ post) ->
  (exists e, snd (update self patch c) = Raise e /\
             items (fst (update self patch c)) = items self) \/
  (exists link,
      snd (update self patch c) = Ok tt /\
      items (fst (update self patch c)) =
      (filter truthy pre ++ VObj link :: filter truthy post)%list).
Proof.
  intros Hd Hl Hnd. unfold update.
  pose proof (update_start_frame self patch) as Hs.
  destruct (update_start self patch) as [s1 r1]. simpl in Hs.
  destruct Hs as (_ & _ & _ & Hi1 & _).
  destruct r1 as [[]|e1]; simpl; [|left; eauto].
  pose proof (update_end_frame s1 patch) as He.
  destruct (update_end s1 patch) as [s2 r2]. simpl in He.
  destruct He as (_ & _ & _ & Hi2 & _).
  destruct r2 as [[]|e2]; simpl; [|left; exists e2; split; congruence].
  unfold update_item_list.
  rewrite (dict_contains_lookup _ _ _ Hl), (dict_getitem_lookup _ _ _ Hl).
  simpl. rewrite (update_items_around pre post (VDict d) c Hnd).
  rewrite (item_from_dict_no_interface_id d c Hd).
  destruct (link_from_dict (VDict d) c) as [r|e] eqn:E; simpl.
  - destruct (link_from_dict_returns_object _ _ _ E) as [link ->]. simpl.
    right. exists link. split; reflexivity.
  - left. exists e. split; [reflexivity | congruence].
Qed.

(** The other half of C4: a UNI descriptor whose interface the controller
    does not find is dropped by [update], which goes on with the rest. *)
Lemma update_unresolved_uni (self : window) (p1 p2 : dict obj)
    (c : Controller obj) (pre post : list value) (d : dict obj)
    (intf_id t : value) (tag : obj) :
  lookup "interface_id" d = Some intf_id -> c intf_id = Ok VNone ->
  lookup "tag" d = Some t -> TAG_from_dict t = Ok tag ->
  lookup "start" p1 = lookup "start" p2 ->
  lookup "end" p1 = lookup "end" p2 ->
  lookup "items" p1 = Some (VList (pre ++ VDict d :: post)) ->
  lookup "items" p2 = Some (VList (pre ++ post)) ->
  update self p1 c = update self p2 c.
Proof.
  intros Hi Hc Ht Htag Hs He H1 H2.
  unfold update, update_start, update_end, update_item_list,
    dict_contains, dict_getitem.
  rewrite Hs, He, H1, H2. simpl.
  rewrite (update_items_skip pre post [] (VDict d) VNone c
             (uni_from_dict_not_found d c intf_id t tag Hi Hc Ht Htag)
             eq_refl).
  reflexivity.
Qed.

(** [as_dict] writes each resolvable item in a form that the loop of
    [from_dict] reads back as the item. *)
Lemma as_dict_items_resolvable (c : Controller obj) (l : list value) :
  Forall (resolvable c) l ->
  exists l',
    (forall acc, as_dict_items l acc = Ok (acc ++ l')%list) /\
    (forall acc, from_dict_items l' c acc = Ok (Some (acc ++ l)%list)).
Proof.
  induction 1 as [|i l Hi _ [l' [IH1 IH2]]].
  - exists []. split; intros acc; simpl; rewrite app_nil_r; reflexivity.
  - assert (Hone : exists v,
               (call_as_dict i = Ok v \/
                call_as_dict i = Raise AttributeError /\ v = i) /\
               item_from_dict v c = Ok i /\ is_None i = false).
    { destruct i; simpl in Hi; try contradiction;
        try (eexists; split; [right; split; reflexivity|];
             split; [apply item_from_dict_non_dict|]; reflexivity).
      destruct Hi as [d [Hd Hr]]. exists (VDict d).
      split; [left; assumption|]. split; [assumption | reflexivity]. }
    destruct Hone as [v [Hv [Hback Hn]]]. exists (v :: l'). split.
    + intros acc. simpl.
      destruct Hv as [-> | [-> ->]]; simpl; rewrite IH1, <- app_assoc;
        reflexivity.
    + intros acc. simpl. rewrite Hback. simpl. rewrite Hn, IH2, <- app_assoc.
      reflexivity.
Qed.

(** C2. A window with a true [id], aware timestamps and resolvable items
    goes through [as_dict] and comes back from [from_dict] with the same
    [id], the same [items] and the same controller, and with [start] and
    [end] as the timestamp format returns them: equal to the second. *)
Theorem from_dict_as_dict (aware : datetime -> Prop)
    (same_second : datetime -> datetime -> Prop) (w : window)
    (fresh : string) :
  (forall d, aware d ->
     exists d', parse_time (VStr (strftime d TIME_FMT)) = Ok d' /\
                same_second d' d) ->
  aware (start w) ->
  aware (end_ w) ->
  truthy (id w) = true ->
  Forall (resolvable (controller w)) (items w) ->
  exists mw_dict w',
    as_dict w = Ok mw_dict /\
    from_dict mw_dict (controller w) fresh = Ok (Some w') /\
    id w' = id w /\
    items w' = items w /\
    controller w' = controller w /\
    same_second (start w') (start w) /\
    same_second (end_ w') (end_ w).
Proof.
  intros Hlib Hs He Hid Hit.
  destruct (as_dict_items_resolvable _ _ Hit) as [l' [Hout Hback]].
  destruct (Hlib _ Hs) as [s' [Hps Hss]].
  destruct (Hlib _ He) as [e' [Hpe Hse]].
  eexists. exists (init s' e' (controller w) (Some (items w)) (id w) fresh).
  split; [|split].
  - unfold as_dict. rewrite Hout. reflexivity.
  - unfold from_dict. simpl. rewrite Hps. simpl. rewrite Hpe. simpl.
    rewrite Hback. reflexivity.
  - unfold init. simpl. rewrite Hid. repeat split; assumption.
Qed.

End Resolution.

(** ** The lifecycle hooks *)

Section Hooks.
Context {obj datetime : Type} {L : Library obj datetime}.

(** Whatever the items of the window, [start_mw] and [end_mw] return with
    the buffer as they found it. *)
Lemma hooks_put_nothing (w : MaintenanceWindow obj datetime)
    (buffer : list (KytosEvent obj)) :
  start_mw w buffer = (buffer, Ok tt) /\ end_mw w buffer = (buffer, Ok tt).
Proof. split; reflexivity. Qed.

End Hooks.

(** * Further properties of the models *)

(** ** Scheduler: one window after another *)

Section SchedulerRuns.
Context {obj datetime : Type} {L : Library obj datetime}.

Import Scheduler.

Abbreviation window := (MaintenanceWindow obj datetime).

Lemma list_ascii_of_string_app (a b : string) :
  list_ascii_of_string (a ++ b) =
  (list_ascii_of_string a ++ list_ascii_of_string b)%list.
Proof. induction a as [|c a IH]; simpl; [reflexivity | rewrite IH; reflexivity]. Qed.

Lemma append_cancel_r (a b s : string) : a ++ s = b ++ s -> a = b.
Proof.
  intros H. apply (f_equal list_ascii_of_string) in H.
  rewrite !list_ascii_of_string_app in H. apply app_inv_tail in H.
  rewrite <- (string_of_list_ascii_of_string a),
          <- (string_of_list_ascii_of_string b), H.
  reflexivity.
Qed.

(** No name ends both in [-start] and in [-end]. *)
Lemma start_suffix_neq_end_suffix (a b : string) :
  a ++ "-start" <> b ++ "-end".
Proof.
  intros H. apply (f_equal list_ascii_of_string) in H.
  rewrite !list_ascii_of_string_app in H.
  change (list_ascii_of_string "-start")
    with (list_ascii_of_string "-star" ++ ["t"%char])%list in H.
  change (list_ascii_of_string "-end")
    with (list_ascii_of_string "-en" ++ ["d"%char])%list in H.
  rewrite !app_assoc in H. apply app_inj_tail in H.
  destruct H as [_ H]. discriminate H.
Qed.

(** The job names of two windows whose ids format differently are four
    different names. *)
Lemma names_disjoint (w1 w2 : window) :
  format (id w1) <> format (id w2) ->
  String.eqb (start_name w1) (start_name w2) = false /\
  String.eqb (end_name w1) (start_name w2) = false /\
  String.eqb (start_name w1) (end_name w2) = false /\
  String.eqb (end_name w1) (end_name w2) = false.
Proof.
  intros Hne. unfold start_name, end_name.
  repeat split; apply String.eqb_neq; intros H.
  - apply append_cancel_r in H. contradiction.
  - symmetry in H. apply start_suffix_neq_end_suffix in H. exact H.
  - apply start_suffix_neq_end_suffix in H. exact H.
  - apply append_cancel_r in H. contradiction.
Qed.

Lemma drop_job_app (n : string) (l1 l2 : list (Job obj datetime)) :
  drop_job n (l1 ++ l2) = (drop_job n l1 ++ drop_job n l2)%list.
Proof. unfold drop_job. apply filter_app. Qed.

Lemma has_job_add_job_other (s : t obj datetime) (f : method) (w : window)
    (n m : string) (d : datetime) :
  String.eqb n m = false ->
  has_job m (jobs (fst (add_job s f w n d))) = has_job m (jobs s).
Proof.
  intros H. unfold add_job. destruct (has_job n (jobs s)); simpl.
  - reflexivity.
  - rewrite has_job_app. simpl. rewrite H. rewrite !orb_false_r. reflexivity.
Qed.

Lemma drop_job_snoc_same (n : string) (l : list (Job obj datetime))
    (j : Job obj datetime) :
  job_id j = n -> drop_job n (l ++ [j]) = drop_job n l.
Proof.
  intros H. rewrite drop_job_app. simpl. rewrite H, String.eqb_refl. simpl.
  apply app_nil_r.
Qed.

Lemma drop_job_snoc_other (n : string) (l : list (Job obj datetime))
    (j : Job obj datetime) :
  String.eqb (job_id j) n = false ->
  drop_job n (l ++ [j]) = (drop_job n l ++ [j])%list.
Proof. intros H. rewrite drop_job_app. simpl. rewrite H. reflexivity. Qed.

(** With nothing happening in between, [remove] undoes [add]. *)
Lemma remove_undoes_add (s : t obj datetime) (mw : window) :
  has_job (start_name mw) (jobs s) = false ->
  has_job (end_name mw) (jobs s) = false ->
  snd (add s mw) = Ok tt /\
  remove (fst (add s mw)) mw = (s, Ok tt).
Proof.
  intros Hs He. rewrite (add_fresh s mw Hs He). simpl. split; [reflexivity|].
  unfold remove. rewrite try_remove_job_spec. simpl.
  rewrite try_remove_job_spec. simpl.
  replace (jobs s ++ [mkJob (start_name mw) call_start_mw mw (start mw);
                      mkJob (end_name mw) call_end_mw mw (end_ mw)])%list
    with ((jobs s ++ [mkJob (start_name mw) call_start_mw mw (start mw)]) ++
          [mkJob (end_name mw) call_end_mw mw (end_ mw)])%list
    by (rewrite <- app_assoc; reflexivity).
  rewrite (drop_job_snoc_other (start_name mw))
    by apply end_name_neq_start_name.
  rewrite (drop_job_snoc_same (start_name mw)) by reflexivity.
  rewrite (drop_job_absent _ _ Hs).
  rewrite (drop_job_snoc_same (end_name mw)) by reflexivity.
  rewrite (drop_job_absent _ _ He).
  rewrite !has_job_app, Hs, He. simpl.
  rewrite !String.eqb_refl. simpl.
  destruct s; reflexivity.
Qed.

Lemma jobs_fire_all (s : t obj datetime) (names : list string) :
  jobs (fire_all s names) =
  fold_left (fun l n => drop_job n l) names (jobs s) /\
  log (fire_all s names) = log s.
Proof.
  unfold fire_all. revert s.
  induction names as [|n names IH]; intros s; simpl; [split; reflexivity|].
  destruct (IH (fire s n)) as [-> ->]. split; reflexivity.
Qed.

Lemma has_job_drop_false (n m : string) (l : list (Job obj datetime)) :
  has_job n l = false -> has_job n (drop_job m l) = false.
Proof.
  induction l as [|j l IH]; simpl; [reflexivity|]. intros H.
  apply orb_false_iff in H. destruct H as [H1 H2].
  destruct (String.eqb (job_id j) m); simpl; [auto|].
  rewrite H1. simpl. auto.
Qed.

Lemma has_job_fire_all_false (s : t obj datetime) (names : list string)
    (n : string) :
  has_job n (jobs s) = false -> has_job n (jobs (fire_all s names)) = false.
Proof.
  unfold fire_all. revert s.
  induction names as [|m names IH]; intros s H; simpl; [exact H|].
  apply IH. simpl. apply has_job_drop_false. exact H.
Qed.

(** Jobs that do not fire stay at the end of the store where [add] put
    them. *)
Lemma fire_all_snoc (s : t obj datetime) (names : list string)
    (js : list (Job obj datetime)) :
  Forall (fun j => ~ In (job_id j) names) js ->
  fire_all {| jobs := jobs s ++ js; log := log s |} names =
  {| jobs := jobs (fire_all s names) ++ js; log := log s |}.
Proof.
  unfold fire_all. revert s.
  induction names as [|n names IH]; intros s H; simpl.
  - reflexivity.
  - assert (Hd : drop_job n js = js).
    { clear IH. induction H as [|j js Hj _ IHjs]; simpl; [reflexivity|].
      destruct (String.eqb (job_id j) n) eqn:E.
      - apply String.eqb_eq in E. exfalso. apply Hj. left. auto.
      - simpl. rewrite IHjs. reflexivity. }
    assert (Hstep : fire {| jobs := jobs s ++ js; log := log s |} n =
                    {| jobs := jobs (fire s n) ++ js;
                       log := log (fire s n) |}).
    { unfold fire. simpl. rewrite drop_job_app, Hd. reflexivity. }
    rewrite Hstep, (IH (fire s n)).
    + reflexivity.
    + revert H. apply Forall_impl. intros j Hj Hin. apply Hj. right.
      exact Hin.
Qed.

(** X16. Registering a window whose two names are free and removing it
    again, with neither of its two jobs having fired in between, undoes
    the registration: both calls return, nothing is logged, and the
    store is what it would be without the window, whatever other jobs
    fired in the meantime. *)
Theorem remove_after_add (s : t obj datetime) (mw : window)
    (fired : list string) :
  has_job (start_name mw) (jobs s) = false ->
  has_job (end_name mw) (jobs s) = false ->
  ~ In (start_name mw) fired ->
  ~ In (end_name mw) fired ->
  snd (add s mw) = Ok tt /\
  remove (fire_all (fst (add s mw)) fired) mw = (fire_all s fired, Ok tt).
Proof.
  intros Hs He Fs Fe.
  destruct (remove_undoes_add s mw Hs He) as [Hadd _]. split; [exact Hadd|].
  pose proof (has_job_fire_all_false s fired _ Hs) as Hs'.
  pose proof (has_job_fire_all_false s fired _ He) as He'.
  destruct (remove_undoes_add (fire_all s fired) mw Hs' He') as [_ Hrm].
  rewrite (add_fresh (fire_all s fired) mw Hs' He') in Hrm. simpl in Hrm.
  rewrite (add_fresh s mw Hs He). simpl.
  rewrite (fire_all_snoc s fired
             [mkJob (start_name mw) call_start_mw mw (start mw);
              mkJob (end_name mw) call_end_mw mw (end_ mw)]).
  - destruct (jobs_fire_all s fired) as [_ Hlog]. rewrite <- Hlog.
    exact Hrm.
  - repeat constructor; simpl; assumption.
Qed.

Lemma has_job_add_other (s : t obj datetime) (mw : window) (m : string) :
  String.eqb (start_name mw) m = false ->
  String.eqb (end_name mw) m = false ->
  has_job m (jobs (fst (add s mw))) = has_job m (jobs s).
Proof.
  intros Hs He. unfold add.
  pose proof (has_job_add_job_other s call_start_mw mw (start_name mw) m
                (start mw) Hs) as H1.
  destruct (add_job s call_start_mw mw (start_name mw) (start mw))
    as [s1 [[]|e]]; simpl in *; [|exact H1].
  rewrite (has_job_add_job_other s1 call_end_mw mw (end_name mw) m
             (end_ mw) He).
  exact H1.
Qed.

(** Whether [add] returns depends on the two names only. *)
Lemma add_result (s : t obj datetime) (mw : window) :
  snd (add s mw) =
  if has_job (start_name mw) (jobs s) || has_job (end_name mw) (jobs s)
  then Raise ConflictingIdError else Ok tt.
Proof.
  unfold add, add_job. destruct (has_job (start_name mw) (jobs s)); simpl.
  - reflexivity.
  - rewrite has_job_app. simpl. rewrite start_name_neq_end_name. simpl.
    rewrite orb_false_r.
    destruct (has_job (end_name mw) (jobs s)); reflexivity.
Qed.

(** X17. [add] is not all or nothing: when the [-start] name is free and
    the [-end] name is taken, the call raises [ConflictingIdError] after
    it has registered the start job, which stays in the store. *)
Theorem add_conflict_on_end (s : t obj datetime) (mw : window) :
  has_job (start_name mw) (jobs s) = false ->
  has_job (end_name mw) (jobs s) = true ->
  add s mw =
  ({| jobs := jobs s ++ [mkJob (start_name mw) call_start_mw mw (start mw)];
      log := log s |}, Raise ConflictingIdError).
Proof.
  intros Hs He. unfold add, add_job. rewrite Hs. simpl.
  rewrite has_job_app, He. reflexivity.
Qed.

(** X18. Two windows whose ids format differently never touch each
    other's jobs: [add] and [remove] for the first leave the presence of
    the second's two jobs as it was, and whether [add] for the second
    returns or raises does not depend on having added the first. *)
Theorem windows_do_not_interfere (s : t obj datetime) (w1 w2 : window) :
  format (id w1) <> format (id w2) ->
  (has_job (start_name w2) (jobs (fst (add s w1))) =
   has_job (start_name w2) (jobs s) /\
   has_job (end_name w2) (jobs (fst (add s w1))) =
   has_job (end_name w2) (jobs s)) /\
  (has_job (start_name w2) (jobs (fst (remove s w1))) =
   has_job (start_name w2) (jobs s) /\
   has_job (end_name w2) (jobs (fst (remove s w1))) =
   has_job (end_name w2) (jobs s)) /\
  snd (add (fst (add s w1)) w2) = snd (add s w2).
Proof.
  intros Hne. destruct (names_disjoint w1 w2 Hne) as (Hss & Hes & Hse & Hee).
  assert (Ha : has_job (start_name w2) (jobs (fst (add s w1))) =
               has_job (start_name w2) (jobs s) /\
               has_job (end_name w2) (jobs (fst (add s w1))) =
               has_job (end_name w2) (jobs s)).
  { split; apply has_job_add_other; assumption. }
  split; [exact Ha|]. split.
  - split; apply remove_keeps_others; assumption.
  - rewrite !add_result. destruct Ha as [-> ->]. reflexivity.
Qed.

(** X19. [remove] writes one log line for each of the two jobs that was
    not there, the line for the start job first, and none for a job it
    removed. *)
Theorem remove_logs (s : t obj datetime) (mw : window) :
  log (fst (remove s mw)) =
  (log s ++
   (if has_job (start_name mw) (jobs s) then []
    else [("Job to start " ++ format (id mw) ++ " already removed.")%string])
   ++
   (if has_job (end_name mw) (jobs s) then []
    else [("Job to end " ++ format (id mw) ++ " already removed.")%string]))%list.
Proof.
  unfold remove. rewrite !try_remove_job_spec. cbn [fst jobs log].
  rewrite has_job_drop_other by apply start_name_neq_end_name.
  destruct (has_job (start_name mw) (jobs s)),
           (has_job (end_name mw) (jobs s));
    rewrite ?app_nil_r, <- ?app_assoc; reflexivity.
Qed.

Lemma NoDup_drop_job (n : string) (l : list (Job obj datetime)) :
  NoDup (job_names l) -> NoDup (job_names (drop_job n l)).
Proof.
  induction l as [|j l IH]; simpl; intros H; [constructor|].
  inversion H as [|x xs Hx Hxs]; subst.
  destruct (String.eqb (job_id j) n); simpl; [auto|].
  constructor; [|auto]. intros Hin. apply Hx.
  apply has_job_In in Hin. apply has_job_In.
  destruct (String.eqb n (job_id j)) eqn:E.
  - apply String.eqb_eq in E. subst n. rewrite has_job_drop_same in Hin.
    discriminate Hin.
  - rewrite has_job_drop_other in Hin by exact E. exact Hin.
Qed.

Lemma after_call_NoDup (s : t obj datetime) (k : call) :
  NoDup (job_names (jobs s)) -> NoDup (job_names (jobs (after_call s k))).
Proof.
  intros H. destruct k as [mw|mw]; simpl.
  - unfold add.
    pose proof (add_job_NoDup s call_start_mw mw (start_name mw) (start mw) H)
      as H1.
    destruct (add_job s call_start_mw mw (start_name mw) (start mw))
      as [s1 [[]|e]]; simpl in *; [|exact H1].
    apply add_job_NoDup. exact H1.
  - rewrite remove_jobs. apply NoDup_drop_job, NoDup_drop_job. exact H.
Qed.

(** X20. However [add] and [remove] are called on a new scheduler, for
    whatever windows and whether the calls return or raise, no two jobs
    in it ever have the same name. *)
Theorem job_names_always_distinct (ks : list call) :
  NoDup (job_names (jobs (after_calls ks))).
Proof.
  unfold after_calls.
  assert (H : forall (s : t obj datetime),
             NoDup (job_names (jobs s)) ->
             NoDup (job_names (jobs (fold_left after_call ks s)))).
  { induction ks as [|k ks IH]; intros s Hs; simpl; [exact Hs|].
    apply IH, after_call_NoDup, Hs. }
  apply H. constructor.
Qed.

End SchedulerRuns.

(** ** Reading one entry *)

Section ItemReading.
Context {obj datetime : Type} {L : Library obj datetime}.

Abbreviation value := (pyval obj).
Abbreviation window := (MaintenanceWindow obj datetime).

Lemma uni_from_dict_result (v r : value) (c : Controller obj) :
  uni_from_dict v c = Ok r -> r = VNone \/ exists o, r = VObj o.
Proof.
  unfold uni_from_dict. intros H.
  repeat (apply bind_Ok_inv in H; destruct H as [? [_ H]]).
  destruct (truthy _ && truthy _).
  - apply bind_Ok_inv in H. destruct H as [u [_ H]]. injection H as <-.
    right. eauto.
  - injection H as <-. left. reflexivity.
Qed.

(** An entry read as [None] is [None] itself, or a dict with an
    [interface_id] for which the controller answered with a false value. *)
Lemma item_from_dict_None_reading (v : value) (c : Controller obj) :
  item_from_dict v c = Ok VNone ->
  v = VNone \/
  exists d intf_id intf,
    v = VDict d /\ lookup "interface_id" d = Some intf_id /\
    c intf_id = Ok intf /\ truthy intf = false.
Proof.
  unfold item_from_dict. intros H.
  destruct (uni_from_dict v c) as [item|e] eqn:E.
  - injection H as ->. right. unfold uni_from_dict, intf_from_dict in E.
    destruct v; simpl in E; try discriminate E.
    unfold dict_getitem in E.
    destruct (lookup "interface_id" d) as [i|] eqn:Ei; [|discriminate E].
    simpl in E. destruct (c i) as [intf|] eqn:Ec; [|discriminate E].
    simpl in E.
    destruct (match lookup "tag" d with
              | Some v => Ok v
              | None => Raise KeyError
              end) as [t|]; [|discriminate E].
    simpl in E. destruct (TAG_from_dict t) as [tag|]; [|discriminate E].
    simpl in E. rewrite andb_true_r in E.
    destruct (truthy intf) eqn:Et.
    + destruct (UNI intf tag); discriminate E.
    + exists d, i, intf. auto.
  - destruct (isinstance e KeyError).
    + destruct (link_from_dict_returns_object v c VNone H) as [o Ho].
      discriminate Ho.
    + destruct (isinstance e TypeError); [|discriminate H].
      injection H as <-. left. reflexivity.
Qed.

(** X6. What an entry is read as is the entry itself, [None], or a Kytos
    object: the reading never makes up other data. It is [None] only for
    an entry that is [None] itself or a dict with an [interface_id] for
    which the controller answered with a false value. *)
Theorem item_reading_result (v r : value) (c : Controller obj) :
  item_from_dict v c = Ok r ->
  (r = v \/ r = VNone \/ exists o, r = VObj o) /\
  (r = VNone ->
   v = VNone \/
   exists d intf_id intf,
     v = VDict d /\ lookup "interface_id" d = Some intf_id /\
     c intf_id = Ok intf /\ truthy intf = false).
Proof.
  intros H. split.
  - unfold item_from_dict in H.
    destruct (uni_from_dict v c) as [item|e] eqn:E.
    + injection H as <-. right. apply (uni_from_dict_result v item c E).
    + destruct (isinstance e KeyError).
      * destruct (link_from_dict_returns_object v c r H) as [o ->].
        right. right. eauto.
      * destruct (isinstance e TypeError); [|discriminate H].
        injection H as <-. left. reflexivity.
  - intros ->. apply item_from_dict_None_reading. exact H.
Qed.

(** X7. A link descriptor whose endpoint is not a dict (an interface id
    given directly, say) is not passed through: the [TypeError] of the
    subscript is raised inside the [except KeyError] handler and leaves
    the [try] statement. *)
Theorem link_endpoint_not_a_dict (d : dict obj) (c : Controller obj) :
  lookup "interface_id" d = None ->
  (forall a,
      lookup "endpoint_a" d = Some a -> is_dict a = false ->
      item_from_dict (VDict d) c = Raise TypeError) /\
  (forall a a_id ea b,
      lookup "endpoint_a" d = Some a -> getitem a "id" = Ok a_id ->
      c a_id = Ok ea ->
      lookup "endpoint_b" d = Some b -> is_dict b = false ->
      item_from_dict (VDict d) c = Raise TypeError).
Proof.
  intros Hi. rewrite (item_from_dict_no_interface_id d c Hi). split.
  - intros a Ha Hd. simpl. unfold dict_getitem. rewrite Ha. simpl.
    rewrite (getitem_non_dict a "id" Hd). reflexivity.
  - intros a a_id ea b Ha Hid Hc Hb Hd. simpl. unfold dict_getitem.
    rewrite Ha. simpl. rewrite Hid. simpl. rewrite Hc. simpl. rewrite Hb.
    simpl. rewrite (getitem_non_dict b "id" Hd). reflexivity.
Qed.

(** X8. A dict with an [interface_id] and no [tag] is read as a link,
    after the controller has been asked for the interface; with no
    [endpoint_a] either, the reading raises [KeyError]. *)
Theorem uni_without_tag (d : dict obj) (c : Controller obj)
    (intf_id intf : value) :
  lookup "interface_id" d = Some intf_id ->
  c intf_id = Ok intf ->
  lookup "tag" d = None ->
  item_from_dict (VDict d) c = link_from_dict (VDict d) c /\
  (lookup "endpoint_a" d = None ->
   item_from_dict (VDict d) c = Raise KeyError).
Proof.
  intros Hi Hc Ht.
  assert (H : item_from_dict (VDict d) c = link_from_dict (VDict d) c).
  { unfold item_from_dict, uni_from_dict, intf_from_dict. simpl.
    unfold dict_getitem. rewrite Hi. simpl. rewrite Hc. simpl. rewrite Ht.
    reflexivity. }
  split; [exact H|]. intros Ha. rewrite H. simpl. unfold dict_getitem.
  rewrite Ha. reflexivity.
Qed.

(** X9. Where an exception of the controller goes when it is asked for
    the [interface_id] of a dict: a [TypeError] makes the dict itself the
    item; a [KeyError] makes the dict be read as a link; any other
    exception leaves the [try] statement. *)
Theorem controller_exception (d : dict obj) (c : Controller obj)
    (intf_id : value) (e : exn) :
  lookup "interface_id" d = Some intf_id ->
  c intf_id = Raise e ->
  (isinstance e KeyError = true ->
   item_from_dict (VDict d) c = link_from_dict (VDict d) c) /\
  (isinstance e KeyError = false -> isinstance e TypeError = true ->
   item_from_dict (VDict d) c = Ok (VDict d)) /\
  (isinstance e KeyError = false -> isinstance e TypeError = false ->
   item_from_dict (VDict d) c = Raise e).
Proof.
  intros Hi Hc.
  assert (H : uni_from_dict (VDict d) c = Raise e).
  { unfold uni_from_dict, intf_from_dict. simpl. unfold dict_getitem.
    rewrite Hi. simpl. rewrite Hc. reflexivity. }
  unfold item_from_dict. rewrite H.
  repeat split; intros; repeat match goal with
                               | Hx : isinstance _ _ = _ |- _ => rewrite Hx; clear Hx
                               end; reflexivity.
Qed.

End ItemReading.

(** ** [as_dict] *)

Section AsDict.
Context {obj datetime : Type} {L : Library obj datetime}.

Abbreviation value := (pyval obj).
Abbreviation window := (MaintenanceWindow obj datetime).

Lemma as_dict_items_plain (l acc : list value) :
  Forall (fun v => is_obj v = false) l ->
  as_dict_items l acc = Ok (acc ++ l)%list.
Proof.
  intros H. revert acc. induction H as [|v l Hv _ IH]; intros acc; simpl.
  - rewrite app_nil_r. reflexivity.
  - destruct v; try discriminate Hv; simpl; rewrite IH, <- app_assoc;
      reflexivity.
Qed.

(** X1. A window whose items are all plain data (switch ids, say) is
    written by [as_dict] with its items as they are, under the keys [id],
    [start], [end] and [items], and never raises. *)
Theorem as_dict_plain_items (w : window) :
  Forall (fun v => is_obj v = false) (items w) ->
  as_dict w =
  Ok [("id", id w);
      ("start", VStr (strftime (start w) TIME_FMT));
      ("end", VStr (strftime (end_ w) TIME_FMT));
      ("items", VList (items w))].
Proof.
  intros H. unfold as_dict. rewrite (as_dict_items_plain _ [] H).
  reflexivity.
Qed.

Lemma as_dict_items_outcome (l acc : list value) :
  match as_dict_items l acc with
  | Ok r => exists l', r = (acc ++ l')%list /\ Forall2 written l l'
  | Raise e =>
      isinstance e AttributeError || isinstance e TypeError = false /\
      exists o, In (VObj o) l /\ obj_as_dict o = Raise e
  end.
Proof.
  revert acc. induction l as [|i l IH]; intros acc; cbn [as_dict_items].
  - exists []. split; [rewrite app_nil_r; reflexivity | constructor].
  - destruct (call_as_dict i) as [d|e] eqn:E.
    + specialize (IH (acc ++ [d])%list).
      destruct (as_dict_items l (acc ++ [d])) as [r|e'].
      * destruct IH as [l' [-> Hl']]. exists (d :: l'). split.
        -- rewrite <- app_assoc. reflexivity.
        -- constructor; [left; exact E | exact Hl'].
      * destruct IH as [Hc [o [Hin Ho]]]. split; [exact Hc|].
        exists o. split; [right; exact Hin | exact Ho].
    + destruct (isinstance e AttributeError || isinstance e TypeError) eqn:C.
      * specialize (IH (acc ++ [i])%list).
        destruct (as_dict_items l (acc ++ [i])) as [r|e']; simpl.
        -- destruct IH as [l' [-> Hl']]. exists (i :: l'). split.
           ++ rewrite <- app_assoc. reflexivity.
           ++ constructor; [|exact Hl']. right. split; [reflexivity|].
              exists e. split; [exact E | exact C].
        -- destruct IH as [Hc [o [Hin Ho]]]. split; [exact Hc|].
           exists o. split; [right; exact Hin | exact Ho].
      * simpl. split; [exact C|].
        destruct i; simpl in E;
          try (injection E as <-; simpl in C; discriminate C).
        exists o. split; [left; reflexivity | exact E].
Qed.

(** X2. [as_dict] either returns a record with the window's [id], the two
    formatted timestamps and one entry per item, in order, each the
    item's own [as_dict()] or the item itself; or it raises what the
    [as_dict()] of one of its objects raised, which is then neither an
    [AttributeError] nor a [TypeError]. *)
Theorem as_dict_outcome (w : window) :
  match as_dict w with
  | Ok d =>
      exists l,
        d = [("id", id w);
             ("start", VStr (strftime (start w) TIME_FMT));
             ("end", VStr (strftime (end_ w) TIME_FMT));
             ("items", VList l)] /\
        Forall2 written (items w) l
  | Raise e =>
      isinstance e AttributeError || isinstance e TypeError = false /\
      exists o, In (VObj o) (items w) /\ obj_as_dict o = Raise e
  end.
Proof.
  unfold as_dict. pose proof (as_dict_items_outcome (items w) []) as H.
  destruct (as_dict_items (items w) []) as [r|e]; simpl.
  - destruct H as [l' [-> Hl']]. exists l'. split; [reflexivity | exact Hl'].
  - exact H.
Qed.

End AsDict.

(** ** [from_dict] *)

Section FromDict.
Context {obj datetime : Type} {L : Library obj datetime}.

Abbreviation value := (pyval obj).
Abbreviation window := (MaintenanceWindow obj datetime).

Lemma from_dict_items_Some (l acc r : list value) (c : Controller obj) :
  from_dict_items l c acc = Ok (Some r) ->
  exists its,
    r = (acc ++ its)%list /\
    Forall2 (fun i it => reads c i it /\ is_None it = false) l its.
Proof.
  revert acc. induction l as [|i l IH]; intros acc; simpl; intros H.
  - injection H as <-. exists []. split; [rewrite app_nil_r; reflexivity|].
    constructor.
  - destruct (item_from_dict i c) as [item|e] eqn:E; simpl in H;
      [|discriminate H].
    destruct (is_None item) eqn:N; [discriminate H|].
    destruct (IH _ H) as [its [-> Hits]]. exists (item :: its). split.
    + rewrite <- app_assoc. reflexivity.
    + constructor; [split; assumption | exact Hits].
Qed.

Lemma from_dict_items_None (l acc : list value) (c : Controller obj) :
  from_dict_items l c acc = Ok None ->
  exists pre i post,
    l = (pre ++ i :: post)%list /\ reads c i VNone.
Proof.
  revert acc. induction l as [|i l IH]; intros acc; simpl; intros H.
  - discriminate H.
  - destruct (item_from_dict i c) as [item|e] eqn:E; simpl in H;
      [|discriminate H].
    destruct (is_None item) eqn:N.
    + destruct item; try discriminate N. exists [], i, l.
      split; [reflexivity | exact E].
    + destruct (IH _ H) as [pre [j [post [-> Hj]]]].
      exists (i :: pre), j, post. split; [reflexivity | exact Hj].
Qed.

(** X3. How [from_dict] fails on a record that lacks a key or carries a
    bad value, in the order in which it looks: [start], then [end], then
    [items]. A missing key raises [KeyError]; a timestamp that does not
    parse raises the parser's exception; an [items] that is [None], a
    number or an object raises [TypeError]. The entries are never read
    before both timestamps have parsed. *)
Theorem from_dict_errors (mw_dict : dict obj) (c : Controller obj)
    (fresh : string) :
  (lookup "start" mw_dict = None ->
   from_dict mw_dict c fresh = Raise KeyError) /\
  (forall vs e,
      lookup "start" mw_dict = Some vs -> parse_time vs = Raise e ->
      from_dict mw_dict c fresh = Raise e) /\
  (forall vs s,
      lookup "start" mw_dict = Some vs -> parse_time vs = Ok s ->
      (lookup "end" mw_dict = None ->
       from_dict mw_dict c fresh = Raise KeyError) /\
      (forall ve e,
          lookup "end" mw_dict = Some ve -> parse_time ve = Raise e ->
          from_dict mw_dict c fresh = Raise e) /\
      (forall ve e',
          lookup "end" mw_dict = Some ve -> parse_time ve = Ok e' ->
          (lookup "items" mw_dict = None ->
           from_dict mw_dict c fresh = Raise KeyError) /\
          (forall its,
              lookup "items" mw_dict = Some its ->
              match its with
              | VList _ | VStr _ | VDict _ => True
              | _ => from_dict mw_dict c fresh = Raise TypeError
              end))).
Proof.
  unfold from_dict, dict_getitem. split; [|split].
  - intros ->. reflexivity.
  - intros vs e -> Hp. simpl. rewrite Hp. reflexivity.
  - intros vs s -> Hp. simpl. rewrite Hp. simpl. split; [|split].
    + intros ->. reflexivity.
    + intros ve e -> Hpe. simpl. rewrite Hpe. reflexivity.
    + intros ve e' -> Hpe. simpl. rewrite Hpe. simpl. split.
      * intros ->. reflexivity.
      * intros its ->. destruct its; simpl; trivial.
Qed.

(** X4. What a window returned by [from_dict] is made of: [start] and
    [end] are what the record's two strings parse to, the controller is
    the one passed in, [id] is the record's [id] when that is a true
    value and the fresh UUID otherwise, and [items] has one item per
    entry of the record, in order, each the reading of its entry and none
    of them [None]. *)
Theorem from_dict_success (mw_dict : dict obj) (c : Controller obj)
    (fresh : string) (w : window) :
  from_dict mw_dict c fresh = Ok (Some w) ->
  exists vs ve its l,
    lookup "start" mw_dict = Some vs /\ parse_time vs = Ok (start w) /\
    lookup "end" mw_dict = Some ve /\ parse_time ve = Ok (end_ w) /\
    lookup "items" mw_dict = Some its /\ py_iter its = Ok l /\
    Forall2 (fun i it => reads c i it /\ is_None it = false) l (items w) /\
    controller w = c /\
    id w = (if truthy (dict_get "id" mw_dict) then dict_get "id" mw_dict
            else VStr fresh).
Proof.
  unfold from_dict, dict_getitem. intros H.
  destruct (lookup "start" mw_dict) as [vs|]; [|discriminate H]. simpl in H.
  destruct (parse_time vs) as [s|] eqn:Hs; [|discriminate H]. simpl in H.
  destruct (lookup "end" mw_dict) as [ve|]; [|discriminate H]. simpl in H.
  destruct (parse_time ve) as [e|] eqn:He; [|discriminate H]. simpl in H.
  destruct (lookup "items" mw_dict) as [its|]; [|discriminate H].
  simpl in H.
  destruct (py_iter its) as [l|] eqn:Hl; [|discriminate H]. simpl in H.
  destruct (from_dict_items l c []) as [[r|]|] eqn:Hr; try discriminate H.
  simpl in H. injection H as <-.
  destruct (from_dict_items_Some l [] r c Hr) as [r' [-> Hits]].
  exists vs, ve, its, l. simpl. repeat split; try reflexivity; assumption.
Qed.

(** X5. [from_dict] returns [None] only because of one entry of the
    record: an entry that is [None] itself, or a dict with an
    [interface_id] for which the controller answered with a false value.
    A link descriptor is never the cause. *)
Theorem from_dict_None_cause (mw_dict : dict obj) (c : Controller obj)
    (fresh : string) :
  from_dict mw_dict c fresh = Ok None ->
  exists its l pre i post,
    lookup "items" mw_dict = Some its /\ py_iter its = Ok l /\
    l = (pre ++ i :: post)%list /\
    (i = VNone \/
     exists d intf_id intf,
       i = VDict d /\ lookup "interface_id" d = Some intf_id /\
       c intf_id = Ok intf /\ truthy intf = false).
Proof.
  unfold from_dict, dict_getitem. intros H.
  destruct (lookup "start" mw_dict) as [vs|]; [|discriminate H]. simpl in H.
  destruct (parse_time vs) as [s|]; [|discriminate H]. simpl in H.
  destruct (lookup "end" mw_dict) as [ve|]; [|discriminate H]. simpl in H.
  destruct (parse_time ve) as [e|]; [|discriminate H]. simpl in H.
  destruct (lookup "items" mw_dict) as [its|]; [|discriminate H].
  simpl in H.
  destruct (py_iter its) as [l|] eqn:Hl; [|discriminate H]. simpl in H.
  destruct (from_dict_items l c []) as [[r|]|] eqn:Hr; try discriminate H.
  destruct (from_dict_items_None l [] c Hr) as [pre [i [post [-> Hi]]]].
  exists its, (pre ++ i :: post)%list, pre, i, post.
  repeat split; try reflexivity; try assumption.
  apply (item_from_dict_None_reading i c Hi).
Qed.

End FromDict.

(** ** [update] *)

Section Update.
Context {obj datetime : Type} {L : Library obj datetime}.

Abbreviation value := (pyval obj).
Abbreviation window := (MaintenanceWindow obj datetime).

Lemma update_items_Ok (l acc r : list value) (c : Controller obj) :
  update_items l c acc = Ok r ->
  exists rs, Forall2 (reads c) l rs /\ r = (acc ++ filter truthy rs)%list.
Proof.
  revert acc. induction l as [|i l IH]; intros acc; simpl; intros H.
  - injection H as <-. exists []. split; [constructor|].
    rewrite app_nil_r. reflexivity.
  - destruct (item_from_dict i c) as [item|e] eqn:E; simpl in H;
      [|discriminate H].
    destruct (truthy item) eqn:T; destruct (IH _ H) as [rs [Hrs ->]];
      exists (item :: rs); (split; [constructor; assumption|]); simpl;
      rewrite T; [rewrite <- app_assoc|]; reflexivity.
Qed.

Lemma update_items_reads (l acc rs : list value) (c : Controller obj) :
  Forall2 (reads c) l rs ->
  update_items l c acc = Ok (acc ++ filter truthy rs)%list.
Proof.
  intros H. revert acc. induction H as [|i r l rs Hr _ IH]; intros acc; simpl.
  - rewrite app_nil_r. reflexivity.
  - unfold reads in Hr. rewrite Hr. simpl.
    destruct (truthy r); rewrite IH; [rewrite <- app_assoc|]; reflexivity.
Qed.

Lemma filter_all (A : Type) (f : A -> bool) (l : list A) :
  Forall (fun x => f x = true) l -> filter f l = l.
Proof.
  induction 1 as [|x l Hx _ IH]; simpl; [reflexivity|].
  rewrite Hx, IH. reflexivity.
Qed.

Lemma Forall_filter_true (A : Type) (f : A -> bool) (l : list A) :
  Forall (fun x => f x = true) (filter f l).
Proof.
  induction l as [|x l IH]; simpl; [constructor|].
  destruct (f x) eqn:E; [constructor; assumption | assumption].
Qed.

(** C10. [update] filters what it has read by truth value, not by a test
    for [None]. An entry that is not a dict is read as itself, without an
    exception; when it is false (the empty string, [0], [False], an empty
    list, [None]) it is left out of what is stored: with the entries
    before and after it read as [rpre] and [rpost], [update] returns and
    stores the true values of [rpre] followed by those of [rpost]. No
    [update] that returns leaves that entry, or any false value, among
    the items, and the call ends as it does on the patch without the
    entry. *)
Theorem update_drops_falsy (self : window) (patch : dict obj)
    (c : Controller obj) (pre post : list value) (v : value) :
  is_dict v = false ->
  truthy v = false ->
  lookup "items" patch = Some (VList (pre ++ v :: post)) ->
  item_from_dict v c = Ok v /\
  (forall rpre rpost self1 self2,
      Forall2 (reads c) pre rpre ->
      Forall2 (reads c) post rpost ->
      update_start self patch = (self1, Ok tt) ->
      update_end self1 patch = (self2, Ok tt) ->
      update self patch c =
      (set_items self2 (filter truthy rpre ++ filter truthy rpost), Ok tt)) /\
  (forall self',
      update self patch c = (self', Ok tt) ->
      Forall (fun x => truthy x = true) (items self') /\
      ~ In v (items self')) /\
  (forall p2,
      lookup "start" patch = lookup "start" p2 ->
      lookup "end" patch = lookup "end" p2 ->
      lookup "items" p2 = Some (VList (pre ++ post)) ->
      update self patch c = update self p2 c).
Proof.
  intros Hd Ht Hl.
  pose proof (item_from_dict_non_dict v c Hd) as Hv.
  split; [exact Hv|]. split; [|split].
  - intros rpre rpost self1 self2 Hpre Hpost H1 H2.
    rewrite (update_after_times self self1 self2 patch c H1 H2).
    unfold update_item_list.
    rewrite (dict_contains_lookup _ _ _ Hl), (dict_getitem_lookup _ _ _ Hl).
    simpl.
    assert (Hall : Forall2 (reads c) (pre ++ v :: post) (rpre ++ v :: rpost)).
    { apply Forall2_app; [exact Hpre|]. constructor; [exact Hv | exact Hpost]. }
    rewrite (update_items_reads _ [] _ c Hall). simpl.
    rewrite filter_app. simpl. rewrite Ht. reflexivity.
  - intros self' H. unfold update in H.
    destruct (update_start self patch) as [s1 [[]|e1]]; [|discriminate H].
    destruct (update_end s1 patch) as [s2 [[]|e2]]; [|discriminate H].
    unfold update_item_list in H.
    rewrite (dict_contains_lookup _ _ _ Hl), (dict_getitem_lookup _ _ _ Hl)
      in H.
    simpl in H.
    destruct (update_items (pre ++ v :: post) c []) as [r|] eqn:Hr;
      [|discriminate H].
    injection H as <-.
    destruct (update_items_Ok _ [] r c Hr) as [rs [_ ->]]. simpl. split.
    + apply Forall_filter_true.
    + intros Hin. apply filter_In in Hin. destruct Hin as [_ Hin].
      rewrite Ht in Hin. discriminate Hin.
  - intros p2 Hs He H2.
    unfold update, update_start, update_end, update_item_list,
      dict_contains, dict_getitem.
    rewrite Hs, He, Hl, H2. simpl.
    rewrite (update_items_skip pre post [] v v c Hv Ht). reflexivity.
Qed.

(** X10. After an [update] that returned on a patch with [items], the
    window holds the readings of the patch's entries, in order, without
    the false ones: no item of the window is [None], an empty string or
    any other false value. *)
Theorem update_stores_true_items (self self' : window) (patch : dict obj)
    (c : Controller obj) (its : value) :
  lookup "items" patch = Some its ->
  update self patch c = (self', Ok tt) ->
  exists l rs,
    py_iter its = Ok l /\ Forall2 (reads c) l rs /\
    items self' = filter truthy rs /\
    Forall (fun v => truthy v = true) (items self').
Proof.
  intros Hl H. unfold update in H.
  destruct (update_start self patch) as [s1 [[]|e1]]; [|discriminate H].
  destruct (update_end s1 patch) as [s2 [[]|e2]]; [|discriminate H].
  unfold update_item_list in H.
  rewrite (dict_contains_lookup _ _ _ Hl), (dict_getitem_lookup _ _ _ Hl) in H.
  simpl in H. destruct (py_iter its) as [l|] eqn:Hi; [|discriminate H].
  simpl in H.
  destruct (update_items l c []) as [r|] eqn:Hr; [|discriminate H].
  injection H as <-. destruct (update_items_Ok l [] r c Hr) as [rs [Hrs ->]].
  exists l, rs. simpl. repeat split; try assumption.
  apply Forall_filter_true.
Qed.

(** X11. [update] and [from_dict] agree: when [from_dict] builds a window
    from a record and none of its items is false, [update] with the same
    record and controller, on any window, returns and leaves that window
    with the [start], [end] and [items] of the built one, its own [id]
    and its own controller. *)
Theorem update_agrees_with_from_dict (self w : window) (mw_dict : dict obj)
    (c : Controller obj) (fresh : string) :
  from_dict mw_dict c fresh = Ok (Some w) ->
  Forall (fun v => truthy v = true) (items w) ->
  update self mw_dict c =
  (mkMW (id self) (start w) (end_ w) (items w) (controller self), Ok tt).
Proof.
  unfold from_dict, dict_getitem. intros H Ht.
  destruct (lookup "start" mw_dict) as [vs|] eqn:Ls; [|discriminate H].
  simpl in H.
  destruct (parse_time vs) as [s|] eqn:Hs; [|discriminate H]. simpl in H.
  destruct (lookup "end" mw_dict) as [ve|] eqn:Le; [|discriminate H].
  simpl in H.
  destruct (parse_time ve) as [e|] eqn:He; [|discriminate H]. simpl in H.
  destruct (lookup "items" mw_dict) as [its|] eqn:Li; [|discriminate H].
  simpl in H.
  destruct (py_iter its) as [l|] eqn:Hl; [|discriminate H]. simpl in H.
  destruct (from_dict_items l c []) as [[r|]|] eqn:Hr; try discriminate H.
  simpl in H. injection H as <-. simpl in *.
  destruct (from_dict_items_Some l [] r c Hr) as [r' [-> Hits]].
  simpl in *.
  assert (Hreads : Forall2 (reads c) l r').
  { clear -Hits. induction Hits as [|i it l r' [Hi _] _ IH];
      constructor; assumption. }
  unfold update, update_start, update_end, update_item_list, dict_contains,
    dict_getitem.
  rewrite Ls, Le, Li. simpl. rewrite Hs, He. simpl. rewrite Hl. simpl.
  rewrite (update_items_reads l [] r' c Hreads). simpl.
  rewrite (filter_all _ _ _ Ht). reflexivity.
Qed.

Lemma Forall2_reads_None (c : Controller obj) (l rs : list value) :
  Forall2 (reads c) l rs ->
  (exists pre i post, l = (pre ++ i :: post)%list /\ reads c i VNone) ->
  (length (filter truthy rs) < length l)%nat.
Proof.
  intros H (pre & i & post & -> & Hi).
  apply Forall2_app_inv_l in H.
  destruct H as (rpre & rrest & Hpre & Hrest & ->).
  inversion Hrest as [|i' r l' rpost Hr Hpost]; subst.
  unfold reads in Hr, Hi. rewrite Hi in Hr. injection Hr as <-.
  rewrite filter_app, !length_app. simpl.
  pose proof (filter_length_le truthy rpre) as H1.
  pose proof (filter_length_le truthy rpost) as H2.
  rewrite (Forall2_length Hpre), (Forall2_length Hpost). lia.
Qed.

(** X12. Where [from_dict] gives up, [update] goes on: on a record from
    which [from_dict] returns [None] and whose entries can all be read,
    [update] returns, with the readings minus the false ones as the new
    [items], which are fewer than the entries. *)
Theorem update_where_from_dict_gives_up (self : window)
    (mw_dict : dict obj) (c : Controller obj) (fresh : string)
    (its : value) (l rs : list value) :
  from_dict (datetime := datetime) mw_dict c fresh = Ok None ->
  lookup "items" mw_dict = Some its ->
  py_iter its = Ok l ->
  Forall2 (reads c) l rs ->
  exists s e,
    update self mw_dict c =
    (mkMW (id self) s e (filter truthy rs) (controller self), Ok tt) /\
    (length (filter truthy rs) < length l)%nat.
Proof.
  unfold from_dict, dict_getitem. intros H Li Hl Hrs.
  destruct (lookup "start" mw_dict) as [vs|] eqn:Ls; [|discriminate H].
  simpl in H.
  destruct (parse_time vs) as [s|] eqn:Hs; [|discriminate H]. simpl in H.
  destruct (lookup "end" mw_dict) as [ve|] eqn:Le; [|discriminate H].
  simpl in H.
  destruct (parse_time ve) as [e|] eqn:He; [|discriminate H]. simpl in H.
  rewrite Li in H. simpl in H. rewrite Hl in H. simpl in H.
  destruct (from_dict_items l c []) as [[r|]|] eqn:Hr; try discriminate H.
  exists s, e. split.
  - unfold update, update_start, update_end, update_item_list,
      dict_contains, dict_getitem.
    rewrite Ls, Le, Li. simpl. rewrite Hs, He. simpl. rewrite Hl. simpl.
    rewrite (update_items_reads l [] rs c Hrs). reflexivity.
  - apply (Forall2_reads_None c l rs Hrs).
    apply (from_dict_items_None l [] c Hr).
Qed.

(** X13. [update] looks at the keys [start], [end] and [items] only, and
    [from_dict] at those and [id]: two patches, or two records, that give
    the same values under these keys have the same effect, whatever else
    they hold. An [id] in a patch is ignored. *)
Theorem only_known_keys_are_read (p1 p2 : dict obj) (c : Controller obj) :
  lookup "start" p1 = lookup "start" p2 ->
  lookup "end" p1 = lookup "end" p2 ->
  lookup "items" p1 = lookup "items" p2 ->
  (forall self : window, update self p1 c = update self p2 c) /\
  (lookup "id" p1 = lookup "id" p2 ->
   forall fresh,
     from_dict (datetime := datetime) p1 c fresh = from_dict p2 c fresh).
Proof.
  intros Hs He Hi. split.
  - intros self.
    unfold update, update_start, update_end, update_item_list,
      dict_contains, dict_getitem.
    rewrite Hs, He, Hi. reflexivity.
  - intros Hid fresh. unfold from_dict, dict_get, dict_getitem.
    rewrite Hs, He, Hi, Hid. reflexivity.
Qed.

Lemma set_start_same (self : window) (d : datetime) :
  start self = d -> set_start self d = self.
Proof. intros <-. destruct self; reflexivity. Qed.

Lemma set_end_same (self : window) (d : datetime) :
  end_ self = d -> set_end self d = self.
Proof. intros <-. destruct self; reflexivity. Qed.

Lemma set_items_same (self : window) (l : list value) :
  items self = l -> set_items self l = self.
Proof. intros <-. destruct self; reflexivity. Qed.

(** X14. Applying a patch a second time changes nothing more: [update] on
    the window that a first [update] left, with the same patch and
    controller, leaves that window as it is and ends the same way,
    whether the first call returned or raised. *)
Theorem update_twice (self : window) (patch : dict obj)
    (c : Controller obj) :
  update (fst (update self patch c)) patch c = update self patch c.
Proof.
  unfold update, update_start, update_end, update_item_list.
  destruct (dict_contains "start" patch);
    [destruct (s <- dict_getitem "start" patch;; parse_time s)|];
    try reflexivity;
    (destruct (dict_contains "end" patch);
     [destruct (s <- dict_getitem "end" patch;; parse_time s)|]);
    try (cbn [fst]; rewrite ?set_start_same by reflexivity; reflexivity);
    (destruct (dict_contains "items" patch);
     [destruct (its <- dict_getitem "items" patch;;
                l <- py_iter its;; update_items l c [])|]);
    cbn [fst];
    rewrite ?set_start_same, ?set_end_same, ?set_items_same by reflexivity;
    reflexivity.
Qed.

(** X15. An exception while the [items] of a patch are read (an entry
    that raises, or an [items] that cannot be iterated) ends [update]
    after the timestamps were replaced: the window holds the new [start]
    and the new [end] of the patch, and its old [items]. *)
Theorem update_items_error (self : window) (patch : dict obj)
    (c : Controller obj) (vs ve its : value) (s e : datetime) (x : exn) :
  lookup "start" patch = Some vs -> parse_time vs = Ok s ->
  lookup "end" patch = Some ve -> parse_time ve = Ok e ->
  lookup "items" patch = Some its ->
  (l <- py_iter its ;; update_items l c []) = Raise x ->
  update self patch c =
  (mkMW (id self) s e (items self) (controller self), Raise x).
Proof.
  intros Ls Hs Le He Li Hx.
  unfold update, update_start, update_end, update_item_list, dict_contains,
    dict_getitem.
  rewrite Ls, Le, Li. simpl. rewrite Hs, He. simpl.
  simpl in Hx. rewrite Hx. reflexivity.
Qed.

End Update.

(** * The reference implementation at work *)

Module ReferenceFacts.
Import Reference.

Lemma digit_val_digit (k : N) : digit_val (digit k) = Some (k mod 10)%N.
Proof.
  unfold digit_val, digit.
  assert (H : (k mod 10 < 10)%N) by (apply N.mod_lt; discriminate).
  pose proof (N.le_0_l (k mod 10)) as H0.
  rewrite N_ascii_embedding by lia.
  rewrite (proj2 (N.leb_le 48 (48 + k mod 10))) by lia.
  rewrite (proj2 (N.leb_le (48 + k mod 10) 57)) by lia.
  cbn [andb]. f_equal. rewrite N.add_comm. apply N.add_sub.
Qed.

(** Every [n] below [bound] passes a test that all of them pass. *)
Lemma below_bound (bound : N) (test : N -> bool) :
  forallb test (map N.of_nat (seq 0 (N.to_nat bound))) = true ->
  forall n : N, (n < bound)%N -> test n = true.
Proof.
  intros Hall n Hn. rewrite forallb_forall in Hall. apply Hall.
  apply in_map_iff. exists (N.to_nat n). split; [apply N2Nat.id|].
  apply in_seq. lia.
Qed.

Lemma two_digits (n : N) :
  (n < 100)%N -> (10 * (10 * 0 + (n / 10) mod 10) + n mod 10)%N = n.
Proof.
  intros H. apply N.eqb_eq.
  apply (below_bound 100
           (fun n => (10 * (10 * 0 + (n / 10) mod 10) + n mod 10 =? n)%N));
    [vm_compute; reflexivity | exact H].
Qed.

Lemma four_digits (n : N) :
  (n < 10000)%N ->
  (10 * (10 * (10 * (10 * 0 + (n / 1000) mod 10) + (n / 100) mod 10)
         + (n / 10) mod 10) + n mod 10)%N = n.
Proof.
  intros H. apply N.eqb_eq.
  apply (below_bound 10000
           (fun n => (10 * (10 * (10 * (10 * 0 + (n / 1000) mod 10)
                                  + (n / 100) mod 10)
                            + (n / 10) mod 10) + n mod 10 =? n)%N));
    [vm_compute; reflexivity | exact H].
Qed.

Lemma read_digits_pad2 (n : N) (rest : string) :
  (n < 100)%N -> read_digits 2 0 (pad2 n ++ rest) = Some (n, rest).
Proof.
  intros H. unfold pad2. cbn [read_digits append].
  rewrite !digit_val_digit, (two_digits n H). reflexivity.
Qed.

Lemma read_digits_pad4 (n : N) (rest : string) :
  (n < 10000)%N -> read_digits 4 0 (pad4 n ++ rest) = Some (n, rest).
Proof.
  intros H. unfold pad4, pad2. cbn [read_digits append].
  rewrite !digit_val_digit, (four_digits n H). reflexivity.
Qed.


Lemma valid_fields_bounds (d : datetime) :
  valid_fields d = true ->
  (year d < 10000 /\ month d < 100 /\ day d < 100 /\ hour d < 100 /\
   minute d < 100 /\ second d < 100)%N.
Proof.
  unfold valid_fields. rewrite !andb_true_iff.
  rewrite !N.leb_le, !N.ltb_lt. intros H.
  assert (Hdim : (days_in_month (year d) (month d) <= 31)%N).
  { unfold days_in_month.
    repeat match goal with |- context [if ?b then _ else _] => destruct b end;
      lia. }
  lia.
Qed.

Lemma read_format_literal (c : ascii) (fmt s : string) (d : datetime) :
  Ascii.eqb c "%" = false ->
  read_format (String c fmt) (String c s) d = read_format fmt s d.
Proof. intros H. simpl. rewrite H, Ascii.eqb_refl. reflexivity. Qed.

Lemma read_format_directive (k : ascii) (fmt s s' : string)
    (d d' : datetime) :
  read_directive k s d = Some (d', s') ->
  read_format (String "%" (String k fmt)) s d = read_format fmt s' d'.
Proof. intros H. simpl. rewrite H. reflexivity. Qed.

Ltac read_two_digits :=
  intros; unfold read_directive, read_field; cbn [Ascii.eqb Bool.eqb];
  rewrite read_digits_pad2 by assumption; reflexivity.

Lemma read_directive_Y (n : N) (rest : string) (d : datetime) :
  (n < 10000)%N ->
  read_directive "Y" (pad4 n ++ rest) d =
  Some (mkDT n (month d) (day d) (hour d) (minute d) (second d)
          (microsecond d) (tzinfo d), rest).
Proof.
  intros; unfold read_directive, read_field; cbn [Ascii.eqb Bool.eqb].
  rewrite read_digits_pad4 by assumption. reflexivity.
Qed.

Lemma read_directive_m (n : N) (rest : string) (d : datetime) :
  (n < 100)%N ->
  read_directive "m" (pad2 n ++ rest) d =
  Some (mkDT (year d) n (day d) (hour d) (minute d) (second d)
          (microsecond d) (tzinfo d), rest).
Proof. read_two_digits. Qed.

Lemma read_directive_d (n : N) (rest : string) (d : datetime) :
  (n < 100)%N ->
  read_directive "d" (pad2 n ++ rest) d =
  Some (mkDT (year d) (month d) n (hour d) (minute d) (second d)
          (microsecond d) (tzinfo d), rest).
Proof. read_two_digits. Qed.

Lemma read_directive_H (n : N) (rest : string) (d : datetime) :
  (n < 100)%N ->
  read_directive "H" (pad2 n ++ rest) d =
  Some (mkDT (year d) (month d) (day d) n (minute d) (second d)
          (microsecond d) (tzinfo d), rest).
Proof. read_two_digits. Qed.

Lemma read_directive_M (n : N) (rest : string) (d : datetime) :
  (n < 100)%N ->
  read_directive "M" (pad2 n ++ rest) d =
  Some (mkDT (year d) (month d) (day d) (hour d) n (second d)
          (microsecond d) (tzinfo d), rest).
Proof. read_two_digits. Qed.

Lemma read_directive_S (n : N) (rest : string) (d : datetime) :
  (n < 100)%N ->
  read_directive "S" (pad2 n ++ rest) d =
  Some (mkDT (year d) (month d) (day d) (hour d) (minute d) n
          (microsecond d) (tzinfo d), rest).
Proof. read_two_digits. Qed.

Lemma year_str_pad4 (y : N) : (1000 <= y)%N -> year_str y = pad4 y.
Proof.
  intros H. unfold year_str.
  rewrite (proj2 (N.ltb_ge y 10)) by lia.
  rewrite (proj2 (N.ltb_ge y 100)) by lia.
  rewrite (proj2 (N.ltb_ge y 1000)) by lia.
  reflexivity.
Qed.

Lemma strftime_utc (d : datetime) :
  (1000 <= year d)%N ->
  tzinfo d = Some 0%Z ->
  strftime d TIME_FMT =
  pad4 (year d) ++ String "-" (pad2 (month d) ++ String "-" (pad2 (day d) ++
  String "T" (pad2 (hour d) ++ String ":" (pad2 (minute d) ++
  String ":" (pad2 (second d) ++ "+0000"))))).
Proof.
  intros Hy H. unfold TIME_FMT.
  cbn [strftime Ascii.eqb Bool.eqb directive].
  rewrite H, (year_str_pad4 _ Hy). reflexivity.
Qed.

Lemma valid_fields_replace (d : datetime) :
  valid_fields d = true -> valid_fields (replace_microsecond_0 d) = true.
Proof.
  unfold valid_fields, replace_microsecond_0.
  cbn [year month day hour minute second microsecond].
  rewrite !andb_true_iff. intros H. repeat split; apply H.
Qed.

Lemma strptime_strftime (d : datetime) :
  utc_aware d ->
  @strptime entity (VStr (strftime d TIME_FMT)) TIME_FMT =
  Ok (replace_microsecond_0 d).
Proof.
  intros (Hv & Hy & Htz).
  destruct (valid_fields_bounds d Hv) as (By & Bm & Bd & BH & BM & BS).
  rewrite (strftime_utc d Hy Htz). unfold strptime, TIME_FMT.
  rewrite (read_format_directive _ _ _ _ _ _ (read_directive_Y _ _ _ By)).
  rewrite read_format_literal by reflexivity.
  rewrite (read_format_directive _ _ _ _ _ _ (read_directive_m _ _ _ Bm)).
  rewrite read_format_literal by reflexivity.
  rewrite (read_format_directive _ _ _ _ _ _ (read_directive_d _ _ _ Bd)).
  rewrite read_format_literal by reflexivity.
  rewrite (read_format_directive _ _ _ _ _ _ (read_directive_H _ _ _ BH)).
  rewrite read_format_literal by reflexivity.
  rewrite (read_format_directive _ _ _ _ _ _ (read_directive_M _ _ _ BM)).
  rewrite read_format_literal by reflexivity.
  rewrite (read_format_directive _ _ _ _ _ _ (read_directive_S _ _ _ BS)).
  cbn.
  assert (Hr : mkDT (year d) (month d) (day d) (hour d) (minute d)
                 (second d) 0 (Some 0%Z) = replace_microsecond_0 d).
  { unfold replace_microsecond_0. rewrite Htz. reflexivity. }
  rewrite Hr, (valid_fields_replace d Hv). reflexivity.
Qed.

Lemma parse_time_strftime (d : datetime) :
  utc_aware d ->
  parse_time (L := library) (VStr (strftime d TIME_FMT)) =
  Ok (replace_microsecond_0 d).
Proof.
  intros H. destruct H as (Hv & Hy & Htz).
  change (bind (@strptime entity (VStr (strftime d TIME_FMT)) TIME_FMT)
            astimezone_utc = Ok (replace_microsecond_0 d)).
  rewrite (strptime_strftime d (conj Hv (conj Hy Htz))).
  unfold bind, astimezone_utc, replace_microsecond_0.
  cbn [tzinfo]. rewrite Htz. reflexivity.
Qed.

(** ** Resolvable entities *)

Lemma uni_resolvable (topology : list string) (i : string) (t : Z)
    (v : pyval entity) :
  existsb (String.eqb i) topology = true ->
  ((1 <=? t) && (t <=? 3))%Z = true ->
  resolvable (L := library) (controller_of topology)
    (VObj (EUni (VObj (EInterface i)) (ETag t v))).
Proof.
  intros Hi Ht. eexists. split; [reflexivity|].
  unfold item_from_dict, uni_from_dict, intf_from_dict, controller_of.
  cbn. rewrite Hi. cbn. rewrite Ht. reflexivity.
Qed.

Lemma link_resolvable (topology : list string) (a b : string) :
  existsb (String.eqb a) topology = true ->
  existsb (String.eqb b) topology = true ->
  resolvable (L := library) (controller_of topology)
    (VObj (ELink (VObj (EInterface a)) (VObj (EInterface b)) [])).
Proof.
  intros Ha Hb. eexists. split; [reflexivity|].
  unfold item_from_dict, uni_from_dict, link_from_dict, controller_of.
  cbn. rewrite Ha. cbn. rewrite Hb. reflexivity.
Qed.

Lemma tagged_link_resolvable (topology : list string) (a b : string)
    (t : Z) (v : pyval entity) :
  existsb (String.eqb a) topology = true ->
  existsb (String.eqb b) topology = true ->
  ((1 <=? t) && (t <=? 3))%Z = true ->
  resolvable (L := library) (controller_of topology)
    (VObj (ELink (VObj (EInterface a)) (VObj (EInterface b))
             [("s_vlan", VObj (ETag t v))])).
Proof.
  intros Ha Hb Ht. eexists. split; [reflexivity|].
  unfold item_from_dict, uni_from_dict, link_from_dict, controller_of.
  cbn. rewrite Ha. cbn. rewrite Hb. cbn. rewrite Ht. reflexivity.
Qed.

(** ** The models on the sample data *)

Import Sample.

(** C1 on the code. For the window of the scenario, items [["SW1"]],
    [start_mw] puts no event on an empty buffer, where the claim has one
    [maintenance.start] event carrying [["SW1"]]; [end_mw] likewise. *)
Theorem start_mw_sw1_puts_no_event :
  start_mw w_sw1 [] = ([], Ok tt) /\
  end_mw w_sw1 [] = ([], Ok tt) /\
  fst (start_mw w_sw1 []) <> [mkEvent "maintenance.start" [VStr "SW1"]].
Proof. repeat split. discriminate. Qed.

(** The sample timestamps are aware, and are what their strings parse to. *)
Lemma t_start_aware : utc_aware t_start.
Proof. repeat split. discriminate. Qed.

Lemma t_end_aware : utc_aware t_end.
Proof. repeat split. discriminate. Qed.

Example parse_s_later : parse_time (L := library) (VStr s_later) = Ok t_later.
Proof. reflexivity. Qed.

Example parse_offset :
  parse_time (L := library) (VStr "2021-01-01T00:30:00+0100") =
  Ok (mkDT 2020 12 31 23 30 0 0 (Some 0%Z)).
Proof. reflexivity. Qed.

(** A year below 1000 does not come back from its own string. *)
Example parse_year_999 :
  parse_time (L := library)
    (VStr (strftime (mkDT 999 1 1 0 0 0 0 (Some 0%Z)) TIME_FMT)) =
  Raise ValueError.
Proof. reflexivity. Qed.

Example parse_tomorrow :
  parse_time (L := library) (VStr "tomorrow") = Raise ValueError.
Proof. reflexivity. Qed.

Lemma w_mixed_resolvable : Forall (resolvable ctl) (items w_mixed).
Proof.
  repeat constructor.
  - apply uni_resolvable; reflexivity.
  - apply tagged_link_resolvable; reflexivity.
Qed.

(** The round trip of C2 on [w_mixed]. *)
Lemma from_dict_as_dict_witness :
  exists mw_dict w',
    as_dict w_mixed = Ok mw_dict /\
    from_dict mw_dict (controller w_mixed) "fresh" = Ok (Some w') /\
    id w' = id w_mixed /\
    items w' = items w_mixed /\
    controller w' = controller w_mixed /\
    start w' = replace_microsecond_0 (start w_mixed) /\
    end_ w' = replace_microsecond_0 (end_ w_mixed).
Proof.
  apply (from_dict_as_dict utc_aware
           (fun d' d => d' = replace_microsecond_0 d) w_mixed "fresh").
  - intros d Hd. exists (replace_microsecond_0 d).
    split; [apply parse_time_strftime; exact Hd | reflexivity].
  - exact t_start_aware.
  - exact t_end_aware.
  - reflexivity.
  - exact w_mixed_resolvable.
Defined.

Example from_dict_as_dict_w_mixed :
  (d <- as_dict w_mixed ;; from_dict d ctl "fresh") = Ok (Some w_mixed).
Proof. reflexivity. Qed.

(** C3 at a link descriptor that names the unknown [port9]. *)
Lemma from_dict_unresolved_link_witness :
  (exists e,
      from_dict (record_of [VStr "SW1"; link_unknown]) ctl "fresh" = Raise e) \/
  (exists w link,
      from_dict (record_of [VStr "SW1"; link_unknown]) ctl "fresh" =
      Ok (Some w) /\
      items w = [VStr "SW1"; VObj link]).
Proof.
  apply (from_dict_unresolved_link
           (record_of [VStr "SW1"; link_unknown]) ctl "fresh" [VStr "SW1"] []
           [("endpoint_a", VDict [("id", VStr port9)]);
            ("endpoint_b", VDict [("id", VStr port2)])]).
  - reflexivity.
  - reflexivity.
  - repeat constructor.
Defined.

(** With this [Link], the call ends in the constructor's exception. *)
Example from_dict_link_unknown :
  from_dict (record_of [VStr "SW1"; link_unknown]) ctl "fresh" =
  Raise (OtherError "KytosLinkCreationError").
Proof. reflexivity. Qed.

Example from_dict_uni_unknown :
  from_dict (record_of [VStr "SW1"; uni_unknown]) ctl "fresh" = Ok None.
Proof. reflexivity. Qed.

(** C4 at the same link descriptor. *)
Lemma update_unresolved_link_witness :
  (exists e,
      snd (update w_sw1 [("items", VList [VStr "SW2"; link_unknown])] ctl) =
      Raise e /\
      items (fst (update w_sw1 [("items", VList [VStr "SW2"; link_unknown])]
                    ctl)) = items w_sw1) \/
  (exists link,
      snd (update w_sw1 [("items", VList [VStr "SW2"; link_unknown])] ctl) =
      Ok tt /\
      items (fst (update w_sw1 [("items", VList [VStr "SW2"; link_unknown])]
                    ctl)) = [VStr "SW2"; VObj link]).
Proof.
  apply (update_unresolved_link w_sw1
           [("items", VList [VStr "SW2"; link_unknown])] ctl [VStr "SW2"] []
           [("endpoint_a", VDict [("id", VStr port9)]);
            ("endpoint_b", VDict [("id", VStr port2)])]).
  - reflexivity.
  - reflexivity.
  - repeat constructor.
Defined.

Example update_link_unknown :
  update w_sw1 [("items", VList [VStr "SW2"; link_unknown])] ctl =
  (w_sw1, Raise (OtherError "KytosLinkCreationError")).
Proof. reflexivity. Qed.

Example update_uni_unknown :
  update w_sw1 [("items", VList [VStr "SW2"; uni_unknown])] ctl =
  (window_of [VStr "SW2"], Ok tt).
Proof. reflexivity. Qed.

(** C5 as stated fails on a dict with neither [interface_id] nor the
    endpoint keys: both operations raise [KeyError]. *)
Lemma shapeless_dict_raises :
  from_dict (record_of [VStr "SW1"; shapeless]) ctl "fresh" = Raise KeyError /\
  update w_sw1 [("items", VList [VStr "SW2"; shapeless])] ctl =
  (w_sw1, Raise KeyError).
Proof. split; reflexivity. Qed.

(** C5 as amended, on a string, a number and a list. *)
Lemma non_dict_items_pass_through_witness :
  (forall self self1 self2 : MaintenanceWindow entity datetime,
      update_start self
        (record_of [VStr "SW1"; VInt 0; VList [VStr "SW2"]]) = (self1, Ok tt) ->
      update_end self1
        (record_of [VStr "SW1"; VInt 0; VList [VStr "SW2"]]) = (self2, Ok tt) ->
      update self (record_of [VStr "SW1"; VInt 0; VList [VStr "SW2"]]) ctl =
      (set_items self2 [VStr "SW1"; VList [VStr "SW2"]], Ok tt)) /\
  (forall fresh vs ve s e,
      lookup "start" (record_of [VStr "SW1"; VInt 0; VList [VStr "SW2"]]) =
      Some vs -> parse_time vs = Ok s ->
      lookup "end" (record_of [VStr "SW1"; VInt 0; VList [VStr "SW2"]]) =
      Some ve -> parse_time ve = Ok e ->
      from_dict (record_of [VStr "SW1"; VInt 0; VList [VStr "SW2"]]) ctl fresh =
      Ok (Some (init s e ctl (Some [VStr "SW1"; VInt 0; VList [VStr "SW2"]])
                  (VStr "mw1") fresh))).
Proof.
  apply (non_dict_items_pass_through
           (record_of [VStr "SW1"; VInt 0; VList [VStr "SW2"]]) ctl
           [VStr "SW1"; VInt 0; VList [VStr "SW2"]]).
  - reflexivity.
  - repeat constructor.
Defined.

Example from_dict_tokens :
  from_dict (record_of [VStr "SW1"; VInt 0; VList [VStr "SW2"]]) ctl "fresh" =
  Ok (Some (window_of [VStr "SW1"; VInt 0; VList [VStr "SW2"]])).
Proof. reflexivity. Qed.

(** C7 as stated fails on the second of two [add] for one window: the
    first registers both jobs, the second raises and registers nothing. *)
Lemma add_twice_raises :
  snd (Scheduler.add Scheduler.init w_sw1) = Ok tt /\
  Scheduler.add (fst (Scheduler.add Scheduler.init w_sw1)) w_sw1 =
  (fst (Scheduler.add Scheduler.init w_sw1), Raise ConflictingIdError).
Proof. split; reflexivity. Qed.

(** C7 as amended, on the empty store. *)
Lemma add_never_duplicates_witness :
  NoDup (Scheduler.job_names
           (Scheduler.jobs (fst (Scheduler.add Scheduler.init w_sw1)))) /\
  Scheduler.job_names
    (Scheduler.jobs (fst (Scheduler.add Scheduler.init w_sw1))) =
  ["mw1-start"; "mw1-end"].
Proof.
  split; [|reflexivity].
  apply (add_never_duplicates Scheduler.init w_sw1). constructor.
Defined.

Example remove_twice :
  Scheduler.job_names
    (Scheduler.jobs
       (fst (Scheduler.remove (fst (Scheduler.add Scheduler.init w_sw1))
               w_sw1))) = [] /\
  Scheduler.remove Scheduler.init w_sw1 =
  (Scheduler.mk []
     ["Job to start mw1 already removed."; "Job to end mw1 already removed."],
   Ok tt).
Proof. split; reflexivity. Qed.

(** C8 as stated fails on a valid [start] next to an invalid [end]: the
    call raises, and the window has the new [start]. *)
Lemma update_bad_end_keeps_new_start :
  update w_sw1 [("start", VStr s_later); ("end", VStr "tomorrow")] ctl =
  (set_start w_sw1 t_later, Raise ValueError) /\
  start (set_start w_sw1 t_later) <> start w_sw1.
Proof. split; [reflexivity | discriminate]. Qed.

Example update_bad_start :
  update w_sw1 [("start", VStr "tomorrow"); ("end", VStr s_later)] ctl =
  (w_sw1, Raise ValueError).
Proof. reflexivity. Qed.

(** C10 at the empty string between two switch tokens: only the two
    tokens are stored. *)
Lemma update_drops_falsy_witness :
  update w_sw1 [("items", VList [VStr "SW1"; VStr ""; VStr "SW2"])] ctl =
  (set_items w_sw1 [VStr "SW1"; VStr "SW2"], Ok tt).
Proof.
  assert (H1 : Forall2 (reads ctl) [VStr "SW1"] [VStr "SW1"])
    by (repeat constructor).
  assert (H2 : Forall2 (reads ctl) [VStr "SW2"] [VStr "SW2"])
    by (repeat constructor).
  exact (proj1 (proj2 (update_drops_falsy w_sw1
                         [("items", VList [VStr "SW1"; VStr ""; VStr "SW2"])]
                         ctl [VStr "SW1"] [VStr "SW2"] (VStr "")
                         eq_refl eq_refl eq_refl))
           [VStr "SW1"] [VStr "SW2"] w_sw1 w_sw1 H1 H2 eq_refl eq_refl).
Defined.

Example update_empty_string :
  update w_sw1 [("items", VList [VStr "SW1"; VStr ""; VStr "SW2"])] ctl =
  (window_of [VStr "SW1"; VStr "SW2"], Ok tt).
Proof. reflexivity. Qed.

End ReferenceFacts.

(** * The further properties on the sample data *)

Module SampleRuns.
Import Reference.
Import Sample.

(** A second window, a UNI descriptor without tag, one whose interface
    id is a number, and a link descriptor that gives an endpoint by its
    id alone. *)
Definition w_other : MaintenanceWindow entity datetime :=
  mkMW (VStr "mw2") t_start t_end [VStr "SW2"] ctl.

Definition uni_no_tag : dict entity := [("interface_id", VStr port1)].

Definition uni_numbered : dict entity :=
  [("interface_id", VInt 5);
   ("tag", VDict [("tag_type", VInt 1); ("value", VInt 100)])].

Definition link_by_id : dict entity :=
  [("endpoint_a", VStr port1); ("endpoint_b", VStr port2)].

Definition uni_known : pyval entity :=
  VDict [("interface_id", VStr port1);
         ("tag", VDict [("tag_type", VInt 1); ("value", VInt 100)])].

Lemma as_dict_plain_items_witness :
  as_dict w_sw1 =
  Ok [("id", VStr "mw1"); ("start", VStr s_start); ("end", VStr s_end);
      ("items", VList [VStr "SW1"])].
Proof.
  assert (H : Forall (fun v => is_obj v = false) (items w_sw1))
    by repeat constructor.
  exact (as_dict_plain_items w_sw1 H).
Defined.

Lemma from_dict_success_witness :
  exists vs ve its l,
    lookup "start" (record_of [VStr "SW1"; uni_known]) = Some vs /\
    parse_time vs = Ok (start (window_of [VStr "SW1"; VObj uni1])) /\
    lookup "end" (record_of [VStr "SW1"; uni_known]) = Some ve /\
    parse_time ve = Ok (end_ (window_of [VStr "SW1"; VObj uni1])) /\
    lookup "items" (record_of [VStr "SW1"; uni_known]) = Some its /\
    py_iter its = Ok l /\
    Forall2 (fun i it => reads ctl i it /\ is_None it = false) l
      (items (window_of [VStr "SW1"; VObj uni1])) /\
    controller (window_of [VStr "SW1"; VObj uni1]) = ctl /\
    id (window_of [VStr "SW1"; VObj uni1]) = VStr "mw1".
Proof.
  apply (from_dict_success (record_of [VStr "SW1"; uni_known]) ctl "fresh"
           (window_of [VStr "SW1"; VObj uni1])).
  reflexivity.
Defined.

Lemma from_dict_None_cause_witness :
  exists its l pre i post,
    lookup "items" (record_of [VStr "SW1"; uni_unknown]) = Some its /\
    py_iter its = Ok l /\
    l = (pre ++ i :: post)%list /\
    (i = VNone \/
     exists d intf_id intf,
       i = VDict d /\ lookup "interface_id" d = Some intf_id /\
       ctl intf_id = Ok intf /\ truthy intf = false).
Proof.
  apply (from_dict_None_cause (record_of [VStr "SW1"; uni_unknown]) ctl
           "fresh").
  reflexivity.
Defined.

Lemma item_reading_result_witness :
  (VObj uni1 = uni_known \/ VObj uni1 = VNone \/
   exists o, VObj uni1 = VObj o) /\
  (VObj uni1 = VNone ->
   uni_known = VNone \/
   exists d intf_id intf,
     uni_known = VDict d /\ lookup "interface_id" d = Some intf_id /\
     ctl intf_id = Ok intf /\ truthy intf = false).
Proof.
  apply (item_reading_result uni_known (VObj uni1) ctl). reflexivity.
Defined.

Lemma link_endpoint_not_a_dict_witness :
  item_from_dict (VDict link_by_id) ctl = Raise TypeError.
Proof.
  apply (link_endpoint_not_a_dict link_by_id ctl eq_refl) with (a := VStr port1);
    reflexivity.
Defined.

Lemma uni_without_tag_witness :
  item_from_dict (VDict uni_no_tag) ctl = Raise KeyError.
Proof.
  apply (uni_without_tag uni_no_tag ctl (VStr port1)
           (VObj (EInterface port1))); reflexivity.
Defined.

Lemma controller_exception_witness :
  item_from_dict (VDict uni_numbered) ctl = Raise AttributeError.
Proof.
  apply (controller_exception uni_numbered ctl (VInt 5) AttributeError);
    reflexivity.
Defined.

Lemma update_stores_true_items_witness :
  exists l rs,
    py_iter (VList [VStr "SW1"; VStr ""; uni_unknown; uni_known]) = Ok l /\
    Forall2 (reads ctl) l rs /\
    items (window_of [VStr "SW1"; VObj uni1]) = filter truthy rs /\
    Forall (fun v => truthy v = true)
      (items (window_of [VStr "SW1"; VObj uni1])).
Proof.
  apply (update_stores_true_items w_sw1 (window_of [VStr "SW1"; VObj uni1])
           [("items", VList [VStr "SW1"; VStr ""; uni_unknown; uni_known])]
           ctl); reflexivity.
Defined.

Lemma update_agrees_with_from_dict_witness :
  update w_other (record_of [VStr "SW1"; uni_known]) ctl =
  (mkMW (VStr "mw2") t_start t_end [VStr "SW1"; VObj uni1] ctl, Ok tt).
Proof.
  apply (update_agrees_with_from_dict w_other
           (window_of [VStr "SW1"; VObj uni1])
           (record_of [VStr "SW1"; uni_known]) ctl "fresh").
  - reflexivity.
  - repeat constructor.
Defined.

Lemma update_where_from_dict_gives_up_witness :
  exists s e,
    update w_other (record_of [VStr "SW1"; uni_unknown]) ctl =
    (mkMW (VStr "mw2") s e (filter truthy [VStr "SW1"; VNone]) ctl, Ok tt) /\
    (length (filter truthy [VStr "SW1"; VNone : pyval entity]) < 2)%nat.
Proof.
  apply (update_where_from_dict_gives_up w_other
           (record_of [VStr "SW1"; uni_unknown]) ctl "fresh"
           (VList [VStr "SW1"; uni_unknown]) [VStr "SW1"; uni_unknown]
           [VStr "SW1"; VNone]).
  - reflexivity.
  - reflexivity.
  - reflexivity.
  - repeat constructor.
Defined.

Lemma only_known_keys_are_read_witness :
  update w_sw1 [("id", VStr "other"); ("items", VList [VStr "SW2"])] ctl =
  update w_sw1 [("items", VList [VStr "SW2"])] ctl.
Proof.
  apply (only_known_keys_are_read
           [("id", VStr "other"); ("items", VList [VStr "SW2"])]
           [("items", VList [VStr "SW2"])] ctl); reflexivity.
Defined.

Lemma update_items_error_witness :
  update w_sw1
    [("start", VStr s_later); ("end", VStr s_end);
     ("items", VList [VStr "SW2"; shapeless])] ctl =
  (mkMW (VStr "mw1") t_later t_end [VStr "SW1"] ctl, Raise KeyError).
Proof.
  apply (update_items_error w_sw1
           [("start", VStr s_later); ("end", VStr s_end);
            ("items", VList [VStr "SW2"; shapeless])] ctl
           (VStr s_later) (VStr s_end) (VList [VStr "SW2"; shapeless])
           t_later t_end KeyError); reflexivity.
Defined.

(** The other window's start job fires between the two calls. *)
Lemma remove_after_add_witness :
  snd (Scheduler.add (fst (Scheduler.add Scheduler.init w_other)) w_sw1) =
  Ok tt /\
  Scheduler.remove
    (Scheduler.fire_all
       (fst (Scheduler.add (fst (Scheduler.add Scheduler.init w_other))
               w_sw1))
       ["mw2-start"]) w_sw1 =
  (Scheduler.fire_all (fst (Scheduler.add Scheduler.init w_other))
     ["mw2-start"], Ok tt).
Proof.
  apply (remove_after_add (fst (Scheduler.add Scheduler.init w_other)) w_sw1
           ["mw2-start"]).
  - reflexivity.
  - reflexivity.
  - intros [H|[]]. discriminate H.
  - intros [H|[]]. discriminate H.
Defined.

(** When the window's own start job has fired, [remove] logs its line. *)
Example remove_after_start_fired :
  Scheduler.remove
    (Scheduler.fire_all (fst (Scheduler.add Scheduler.init w_sw1))
       ["mw1-start"]) w_sw1 =
  (Scheduler.mk [] ["Job to start mw1 already removed."], Ok tt).
Proof. reflexivity. Qed.

Lemma add_conflict_on_end_witness :
  Scheduler.add
    (Scheduler.mk
       [Scheduler.mkJob "mw1-end" Scheduler.call_end_mw w_sw1 t_end] [])
    w_sw1 =
  (Scheduler.mk
     [Scheduler.mkJob "mw1-end" Scheduler.call_end_mw w_sw1 t_end;
      Scheduler.mkJob "mw1-start" Scheduler.call_start_mw w_sw1 t_start] [],
   Raise ConflictingIdError).
Proof.
  exact (add_conflict_on_end
           (Scheduler.mk
              [Scheduler.mkJob "mw1-end" Scheduler.call_end_mw w_sw1 t_end]
              []) w_sw1 eq_refl eq_refl).
Defined.

Lemma windows_do_not_interfere_witness :
  snd (Scheduler.add (fst (Scheduler.add Scheduler.init w_sw1)) w_other) =
  snd (Scheduler.add Scheduler.init w_other).
Proof.
  apply (windows_do_not_interfere Scheduler.init w_sw1 w_other).
  discriminate.
Defined.

End SampleRuns.
